(** * The chain core of go-qrl: block admission, rollback and fork recovery

    A shallow embedding of [core/chain/chain.go].  The [Chain] methods are
    state-passing functions in a small monad that also carries Go's run-time
    panics (nil dereference, index out of range).  The persistent store, the
    block and transaction types and the transaction pool live in packages
    whose sources are not part of this development; they are modelled from
    the specification, or taken as an environment of collaborators. *)

From stdpp Require Import base option list strings gmap.
From Stdlib Require Import ZArith.
From Stdlib.Strings Require Import Byte.

Open Scope Z_scope.

(** ** Machine integers *)

(** Go's [uint64] arithmetic wraps around modulo 2^64. *)
Definition wrap64 (z : Z) : Z := z `mod` 2 ^ 64.

(** ** Data model *)

(** Modelled from the spec: the types of the block, transaction, metadata
    and address-state packages, with the fields the chain core reads.  A
    byte slice used as a hash or an address is a string. *)

(** The payload of a transaction: the coinbase at index 0 of a block, a
    transfer, or any other kind. *)
Inductive TxBody :=
  | CoinBaseBody (addr_to : string) (amount : Z)
  | TransferBody (addrs_to : list string) (amounts : list Z) (fee : Z)
  | OtherBody.

Record Tx := {
  TransactionHash : string;
  AddrFromPK : string;
  OtsKey : Z;
  Body : TxBody
}.

Record Block := {
  HeaderHash : string;
  PrevHeaderHash : string;
  BlockNumber : Z;
  Size : Z;
  Transactions : list Tx
}.

Record BlockNumberMapping := {
  Headerhash : string;
  PrevHeaderhash : string
}.

Record BlockMetaData := {
  BlockDifficulty : list byte;
  TotalDifficulty : list byte;
  ChildHeaderHashes : list string
}.

Record AddressState := {
  Address : string;
  Balance : Z;
  Nonce : Z;
  OtsUsed : list Z
}.

Record ForkState := {
  InitiatorHeaderhash : string;
  ForkPointHeaderhash : string;
  OldMainchainHashPath : list string;
  NewMainchainHashPath : list string
}.

(** Modelled from the spec: the default state of an address, and the
    balance setter. *)
Definition GetDefaultAddressState (addr : string) : AddressState :=
  {| Address := addr; Balance := 0; Nonce := 0; OtsUsed := [] |}.

Definition SetBalance (bal : Z) (a : AddressState) : AddressState :=
  {| Address := Address a; Balance := bal; Nonce := Nonce a; OtsUsed := OtsUsed a |}.

(** Modelled from the spec: the metadata triple of a block. *)
Definition CreateBlockMetadata (bd td : list byte) (children : list string) : BlockMetaData :=
  {| BlockDifficulty := bd; TotalDifficulty := td; ChildHeaderHashes := children |}.

(** [reflect.DeepEqual] on two byte slices.  A nil slice and an empty one are
    both the empty string here; every header hash compared below is either a
    stored block's hash or a zero-valued local. *)
Definition DeepEqual (a b : string) : bool := bool_decide (a = b).

(** Modelled from the spec: the cumulative difficulty is a fixed-width
    unsigned big-endian byte string, compared numerically; this is the
    composition [big.Int.SetString (UInt256ToString (BytesToUCharVector b))]. *)
Definition uint256_of_bytes (bs : list byte) : Z :=
  fold_left (fun acc b => acc * 256 + Z.of_N (Byte.to_N b)) bs 0.

(** ** The persistent store *)

(** One write of the store.  A batch is a list of writes committed
    atomically; a write issued with a nil batch is committed on its own. *)
Inductive WriteOp :=
  | WPutBlock (b : Block)
  | WPutBlockNumberMapping (n : Z) (m : BlockNumberMapping)
  | WRemoveBlockNumberMapping (n : Z)
  | WPutBlockMetaData (h : string) (m : BlockMetaData)
  | WPutAddressesState (a : gmap string AddressState)
  | WPutChainHeight (h : Z)
  | WPutForkState (fs : ForkState)
  | WDeleteForkState
  | WUpdateTxMetadata (b : Block)
  | WRollbackTxMetadata (b : Block).

Record DB := {
  blocks : gmap string Block;
  number_mapping : gmap Z BlockNumberMapping;
  block_metadata : gmap string BlockMetaData;
  addresses : gmap string AddressState;
  chain_height : option Z;
  fork_state : option ForkState;
  tx_metadata : gmap string Z
}.

Definition empty_db : DB :=
  {| blocks := ∅; number_mapping := ∅; block_metadata := ∅; addresses := ∅;
     chain_height := None; fork_state := None; tx_metadata := ∅ |}.

(** Modelled from the spec: the transaction-metadata index of the store
    ([UpdateTxMetadata] / [RollbackTxMetadata]) records, for each transaction
    of a block, the height of that block. *)
Definition index_txs (b : Block) (m : gmap string Z) : gmap string Z :=
  foldl (fun acc tx => <[TransactionHash tx := BlockNumber b]> acc) m (Transactions b).

Definition unindex_txs (b : Block) (m : gmap string Z) : gmap string Z :=
  foldl (fun acc tx => delete (TransactionHash tx) acc) m (Transactions b).

(** Modelled from the spec: the effect of one write on the typed views of
    the store (blocks by header hash, canonical mapping by height, metadata
    by header hash, address states, chain height, the fork-state record). *)
Definition apply_op (op : WriteOp) (d : DB) : DB :=
  match op with
  | WPutBlock b =>
      {| blocks := <[HeaderHash b := b]> (blocks d); number_mapping := number_mapping d;
         block_metadata := block_metadata d; addresses := addresses d;
         chain_height := chain_height d; fork_state := fork_state d;
         tx_metadata := tx_metadata d |}
  | WPutBlockNumberMapping n m =>
      {| blocks := blocks d; number_mapping := <[n := m]> (number_mapping d);
         block_metadata := block_metadata d; addresses := addresses d;
         chain_height := chain_height d; fork_state := fork_state d;
         tx_metadata := tx_metadata d |}
  | WRemoveBlockNumberMapping n =>
      {| blocks := blocks d; number_mapping := delete n (number_mapping d);
         block_metadata := block_metadata d; addresses := addresses d;
         chain_height := chain_height d; fork_state := fork_state d;
         tx_metadata := tx_metadata d |}
  | WPutBlockMetaData h m =>
      {| blocks := blocks d; number_mapping := number_mapping d;
         block_metadata := <[h := m]> (block_metadata d); addresses := addresses d;
         chain_height := chain_height d; fork_state := fork_state d;
         tx_metadata := tx_metadata d |}
  | WPutAddressesState a =>
      {| blocks := blocks d; number_mapping := number_mapping d;
         block_metadata := block_metadata d; addresses := a ∪ addresses d;
         chain_height := chain_height d; fork_state := fork_state d;
         tx_metadata := tx_metadata d |}
  | WPutChainHeight h =>
      {| blocks := blocks d; number_mapping := number_mapping d;
         block_metadata := block_metadata d; addresses := addresses d;
         chain_height := Some h; fork_state := fork_state d;
         tx_metadata := tx_metadata d |}
  | WPutForkState fs =>
      {| blocks := blocks d; number_mapping := number_mapping d;
         block_metadata := block_metadata d; addresses := addresses d;
         chain_height := chain_height d; fork_state := Some fs;
         tx_metadata := tx_metadata d |}
  | WDeleteForkState =>
      {| blocks := blocks d; number_mapping := number_mapping d;
         block_metadata := block_metadata d; addresses := addresses d;
         chain_height := chain_height d; fork_state := None;
         tx_metadata := tx_metadata d |}
  | WUpdateTxMetadata b =>
      {| blocks := blocks d; number_mapping := number_mapping d;
         block_metadata := block_metadata d; addresses := addresses d;
         chain_height := chain_height d; fork_state := fork_state d;
         tx_metadata := index_txs b (tx_metadata d) |}
  | WRollbackTxMetadata b =>
      {| blocks := blocks d; number_mapping := number_mapping d;
         block_metadata := block_metadata d; addresses := addresses d;
         chain_height := chain_height d; fork_state := fork_state d;
         tx_metadata := unindex_txs b (tx_metadata d) |}
  end.

Definition apply_ops (ops : list WriteOp) (d : DB) : DB :=
  foldl (fun acc op => apply_op op acc) d ops.


(** Modelled from the spec: a store I/O failure.  Only the three writes
    whose error some caller in chain.go inspects can fail here; a failed
    write changes nothing. *)
Record Faults := {
  put_block_fails : bool;
  put_addresses_fail : bool;
  put_fork_state_fails : bool
}.

Definition no_faults : Faults :=
  {| put_block_fails := false; put_addresses_fail := false; put_fork_state_fails := false |}.

(** Modelled from the spec: the store ([state.State]).  [db] is the durable
    content; [commits] is the history of atomic commits that produced it,
    oldest first, so that the content after an interruption is the replay
    of a prefix of [commits]. *)
Record State := {
  db : DB;
  commits : list (list WriteOp);
  faults : Faults
}.

(** Modelled from the spec: an atomic multi-key commit. *)
Definition commit (ops : list WriteOp) (s : State) : State :=
  {| db := apply_ops ops (db s); commits := commits s ++ [ops]; faults := faults s |}.

(** Modelled from the spec: a [*leveldb.Batch] is the list of writes put
    into it; where a batch is passed, [None] is the nil batch. *)
Definition Batch := list WriteOp.

(** Modelled from the spec: [GetBatch] opens an empty batch. *)
Definition GetBatch : Batch := [].

(** Modelled from the spec: [WriteBatch] commits the writes of a batch
    atomically. *)
Definition WriteBatch (batch : Batch) (s : State) : State := commit batch s.

(** Modelled from the spec: a write goes into the batch when there is one
    and is committed at once, on its own, when the batch is nil. *)
Definition write (op : WriteOp) (batch : option Batch) (s : State) : option Batch * State :=
  match batch with
  | Some ops => (Some (ops ++ [op]), s)
  | None => (None, commit [op] s)
  end.

(** Modelled from the spec: the writes whose error is looked at return
    [true] for a non-nil error, and then have written nothing. *)
Definition write_or_fail (fails : bool) (op : WriteOp) (batch : option Batch) (s : State)
  : bool * option Batch * State :=
  if fails then (true, batch, s) else (false, (write op batch s).1, (write op batch s).2).

(** Modelled from the spec: the typed writes of the store interface,
    [PutBlock], [PutAddressesState], [PutForkState],
    [PutBlockNumberMapping], [PutBlockMetaData], [PutChainHeight],
    [UpdateTxMetadata] and [RollbackTxMetadata], each with a batch or
    nil. *)
Definition PutBlock (b : Block) batch (s : State) :=
  write_or_fail (put_block_fails (faults s)) (WPutBlock b) batch s.
Definition PutAddressesState (a : gmap string AddressState) batch (s : State) :=
  write_or_fail (put_addresses_fail (faults s)) (WPutAddressesState a) batch s.
Definition PutForkState (fs : ForkState) batch (s : State) :=
  write_or_fail (put_fork_state_fails (faults s)) (WPutForkState fs) batch s.

Definition PutBlockNumberMapping (n : Z) (m : BlockNumberMapping) batch (s : State) :=
  write (WPutBlockNumberMapping n m) batch s.
Definition PutBlockMetaData (h : string) (m : BlockMetaData) batch (s : State) :=
  write (WPutBlockMetaData h m) batch s.
Definition PutChainHeight (h : Z) batch (s : State) := write (WPutChainHeight h) batch s.
Definition UpdateTxMetadata (b : Block) batch (s : State) := write (WUpdateTxMetadata b) batch s.
Definition RollbackTxMetadata (b : Block) batch (s : State) := write (WRollbackTxMetadata b) batch s.

(** Modelled from the spec: [RemoveBlockNumberMapping] and
    [DeleteForkState] take no batch argument and write through. *)
Definition RemoveBlockNumberMapping (n : Z) (s : State) : State :=
  commit [WRemoveBlockNumberMapping n] s.
Definition DeleteForkState (s : State) : State := commit [WDeleteForkState] s.

(** Modelled from the spec: the typed reads of the store interface;
    [None] is a non-nil error, and with it a nil result. *)
Definition GetChainHeight (s : State) : option Z := chain_height (db s).
Definition GetBlock (h : string) (s : State) : option Block := blocks (db s) !! h.
Definition GetBlockMetadata (h : string) (s : State) : option BlockMetaData :=
  block_metadata (db s) !! h.
Definition GetForkState (s : State) : option ForkState := fork_state (db s).
Definition GetBlockNumberMapping (n : Z) (s : State) : option BlockNumberMapping :=
  number_mapping (db s) !! n.

(** Modelled from the spec: [GetBlockByNumber] returns the canonical
    block at a height; the mapping names a header hash and the block is
    loaded under it. *)
Definition GetBlockByNumber (n : Z) (s : State) : option Block :=
  match GetBlockNumberMapping n s with
  | Some m => GetBlock (Headerhash m) s
  | None => None
  end.

(** Modelled from the spec: [GetAddressesState] fills the prepared map in
    place; each touched address is materialised from the store, a missing
    one gets the default state. *)
Definition load_address (s : State) (addr : string) : AddressState :=
  default (GetDefaultAddressState addr) (addresses (db s) !! addr).

Definition GetAddressesState (addrs : list string) (s : State) : gmap string AddressState :=
  foldl (fun acc a => <[a := load_address s a]> acc) ∅ addrs.

(** Modelled from the spec: [UnsetOTSKey] clears a consumed
    one-time-signature index of an address state. *)
Definition UnsetOTSKey (a : AddressState) (idx : Z) : AddressState :=
  {| Address := Address a; Balance := Balance a; Nonce := Nonce a;
     OtsUsed := filter (fun k => k ≠ idx) (OtsUsed a) |}.

(** ** The transaction pool *)

(** Modelled from the spec: the pool holds pending transactions, each
    stamped with a height. *)
Definition TransactionPool := list (Tx * Z).

(** Modelled from the spec: remove the transactions whose hashes appear in
    the block. *)
Definition RemoveTxInBlock (b : Block) (p : TransactionPool) : TransactionPool :=
  filter (fun e => TransactionHash e.1 ∉ (TransactionHash <$> Transactions b)) p.

(** Modelled from the spec: reintroduce the transactions of a reverted
    block, stamped with the revert height. *)
Definition AddTxFromBlock (b : Block) (blockNumber : Z) (p : TransactionPool) : TransactionPool :=
  p ++ ((fun tx => (tx, blockNumber)) <$> Transactions b).

(** ** Collaborators *)

Record Config := {
  ReorgLimit : Z;
  MiningSetpointBlocktime : Z;
  GenesisDifficulty : string
}.

(** The behaviour of the packages the chain core calls into and whose
    result it only passes on: the semantics of blocks and transactions on
    an address-state map, the genesis description, the difficulty tracker,
    the size policy and the staleness policy of the pool. *)
Record Env := {
  PrepareAddressesList : Block → list string;
  ApplyStateChanges : Block → gmap string AddressState → bool * gmap string AddressState;
  RevertStateChanges : Tx → gmap string AddressState → gmap string AddressState;
  CoinBaseApplyStateChanges : Tx → gmap string AddressState → gmap string AddressState;
  TransferApplyStateChanges : Tx → gmap string AddressState → gmap string AddressState;
  ValidateExtendedCoinbase : Tx → Z → bool;
  GenesisBalance : list (string * Z);
  GenesisTransactions : list Tx;
  GenesisBlockNumber : Z;
  StringToUInt256 : string → list byte;
  DifficultyTrackerGet : Z → list byte → list byte;
  GetBlockSizeLimit : State → Block → option Z;
  IsStale : Z → Tx * Z → bool
}.

(** ** The chain *)

Record Chain := {
  config : Config;
  triggerMiner : bool;
  state : State;
  txPool : TransactionPool;
  lastBlock : option Block;
  currentDifficulty : list byte
}.

Inductive error :=
  | ErrCoinbaseValidation
  | ErrNotFound
  | ErrAlternateGenesis.

(** The outcome of running a method: it returns, or the Go run time panics,
    or the model's loop budget is exhausted. *)
Inductive Result (A : Type) :=
  | Ret (a : A)
  | Panic
  | OutOfFuel.
Arguments Ret {A} a.
Arguments Panic {A}.
Arguments OutOfFuel {A}.

Definition M (A : Type) : Type := Chain → Result (A * Chain).

Definition ret {A} (a : A) : M A := fun c => Ret (a, c).
Definition panic {A} : M A := fun _ => Panic.
Definition out_of_fuel {A} : M A := fun _ => OutOfFuel.
Definition bind {A B} (m : M A) (k : A → M B) : M B :=
  fun c => match m c with
           | Ret (a, c') => k a c'
           | Panic => Panic
           | OutOfFuel => OutOfFuel
           end.

Notation "'let*' x ':=' m 'in' k" := (bind m (fun x => k))
  (at level 10, x pattern, m at level 100, k at level 200).

(** Dereferencing a pointer that may be nil. *)
Definition deref {A} (p : option A) : M A :=
  match p with
  | Some a => ret a
  | None => panic
  end.

Definition set_state (s : State) (c : Chain) : Chain :=
  {| config := config c; triggerMiner := triggerMiner c; state := s; txPool := txPool c;
     lastBlock := lastBlock c; currentDifficulty := currentDifficulty c |}.
Definition set_lastBlock (b : option Block) (c : Chain) : Chain :=
  {| config := config c; triggerMiner := triggerMiner c; state := state c; txPool := txPool c;
     lastBlock := b; currentDifficulty := currentDifficulty c |}.
Definition set_txPool (p : TransactionPool) (c : Chain) : Chain :=
  {| config := config c; triggerMiner := triggerMiner c; state := state c; txPool := p;
     lastBlock := lastBlock c; currentDifficulty := currentDifficulty c |}.
Definition set_triggerMiner (t : bool) (c : Chain) : Chain :=
  {| config := config c; triggerMiner := t; state := state c; txPool := txPool c;
     lastBlock := lastBlock c; currentDifficulty := currentDifficulty c |}.
Definition set_currentDifficulty (d : list byte) (c : Chain) : Chain :=
  {| config := config c; triggerMiner := triggerMiner c; state := state c; txPool := txPool c;
     lastBlock := lastBlock c; currentDifficulty := d |}.

Definition gets {A} (f : Chain → A) : M A := fun c => Ret (f c, c).
Definition modify (f : Chain → Chain) : M unit := fun c => Ret (tt, f c).

(** A read of the store, and a store operation that returns a value. *)
Definition read {A} (f : State → A) : M A := fun c => Ret (f (state c), c).
Definition on_state {A} (f : State → A * State) : M A :=
  fun c => Ret ((f (state c)).1, set_state (f (state c)).2 c).
Definition update_state (f : State → State) : M unit :=
  fun c => Ret (tt, set_state (f (state c)) c).

(** [c.state.WriteBatch(batch)]; every call site passes the batch it got
    from [GetBatch]. *)
Definition writeBatch (batch : option Batch) : M unit :=
  match batch with
  | Some ops => update_state (WriteBatch ops)
  | None => ret tt
  end.

Definition CreateChain (cfg : Config) (s : State) : Chain :=
  {| config := cfg; triggerMiner := false; state := s; txPool := [];
     lastBlock := None; currentDifficulty := [] |}.

(** [xs[i]] for a Go [int] index: out of range panics. *)
Definition index {A} (xs : list A) (i : Z) : option A :=
  if i <? 0 then None else xs !! Z.to_nat i.

Section Chain.

Variable E : Env.

Definition Height : M Z :=
  let* tip := gets lastBlock in
  let* tip := deref tip in
  ret (BlockNumber tip).

Definition GetLastBlock : M (option Block) := gets lastBlock.

Definition applyBlock (block : Block) (batch : option Batch) : M (bool * option Batch) :=
  let* addressesState := read (GetAddressesState (PrepareAddressesList E block)) in
  let applied := ApplyStateChanges E block addressesState in
  if negb applied.1 then ret (false, batch)
  else
    let* (err, batch) := on_state (PutAddressesState applied.2 batch) in
    if err : bool then ret (false, batch) else ret (true, batch).

Definition updateBlockNumberMapping (block : Block) (batch : option Batch) : M (option Batch) :=
  let blockNumberMapping :=
    {| Headerhash := HeaderHash block; PrevHeaderhash := PrevHeaderHash block |} in
  on_state (PutBlockNumberMapping (BlockNumber block) blockNumberMapping batch).

Definition updateChainState (block : Block) (batch : option Batch) : M (option Batch) :=
  let* _ := modify (set_lastBlock (Some block)) in
  let* batch := updateBlockNumberMapping block batch in
  let* _ := modify (fun c => set_txPool (RemoveTxInBlock block (txPool c)) c) in
  let* batch := on_state (PutChainHeight (BlockNumber block) batch) in
  on_state (UpdateTxMetadata block batch).

(** The loop of [RemoveBlockFromMainchain]:
    [for i := len(txs) - 1; i <= 0; i--]. *)
Fixpoint revert_loop (fuel : nat) (txs : list Tx) (i : Z)
    (addressesState : gmap string AddressState) : Result (gmap string AddressState) :=
  if i <=? 0 then
    match fuel with
    | O => OutOfFuel
    | S fuel' =>
        match index txs i with
        | None => Panic
        | Some tx =>
            let addressesState := RevertStateChanges E tx addressesState in
            match addressesState !! AddrFromPK tx with
            | None => Panic
            | Some a =>
                revert_loop fuel' txs (i - 1)
                  (<[AddrFromPK tx := UnsetOTSKey a (OtsKey tx)]> addressesState)
            end
        end
    end
  else Ret addressesState.

Definition lift_result {A} (r : Result A) : M A :=
  fun c => match r with
           | Ret a => Ret (a, c)
           | Panic => Panic
           | OutOfFuel => OutOfFuel
           end.

Definition RemoveBlockFromMainchain (fuel : nat) (block : Block) (blockNumber : Z)
    (batch : option Batch) : M (option Batch) :=
  let* addressesState := read (GetAddressesState (PrepareAddressesList E block)) in
  let* addressesState :=
    lift_result (revert_loop fuel (Transactions block)
                   (Z.of_nat (length (Transactions block)) - 1) addressesState) in
  let* _ := modify (fun c => set_txPool (AddTxFromBlock block blockNumber (txPool c)) c) in
  let* batch := on_state (PutChainHeight (wrap64 (BlockNumber block - 1)) batch) in
  let* batch := on_state (RollbackTxMetadata block batch) in
  let* _ := update_state (RemoveBlockNumberMapping (BlockNumber block)) in
  let* (_, batch) := on_state (PutAddressesState addressesState batch) in
  ret batch.

Definition append_old (h : string) (fs : ForkState) : ForkState :=
  {| InitiatorHeaderhash := InitiatorHeaderhash fs;
     ForkPointHeaderhash := ForkPointHeaderhash fs;
     OldMainchainHashPath := OldMainchainHashPath fs ++ [h];
     NewMainchainHashPath := NewMainchainHashPath fs |}.

(** [Rollback]; the fork state is a pointer the caller keeps, so the
    updated record is returned next to the hash path. *)
Fixpoint Rollback_loop (n fuel : nat) (forkedHeaderHash : string)
    (forkState : option ForkState) (hashPath : list string)
    : M (list string * option ForkState) :=
  match n with
  | O => out_of_fuel
  | S n' =>
      let* tip := gets lastBlock in
      let* tip := deref tip in
      if DeepEqual (HeaderHash tip) forkedHeaderHash then ret (hashPath, forkState)
      else
        let* b := read (GetBlock (HeaderHash tip)) in
        let* b := deref b in
        let* mainchainBlock := read (GetBlockByNumber (BlockNumber b)) in
        let* mainchainBlock := deref mainchainBlock in
        if DeepEqual (HeaderHash b) (HeaderHash mainchainBlock) then ret (hashPath, forkState)
        else
          let hashPath := hashPath ++ [HeaderHash tip] in
          let batch := Some GetBatch in
          let* batch := RemoveBlockFromMainchain fuel tip (BlockNumber b) batch in
          let* (forkState, batch) :=
            match forkState with
            | Some fs =>
                let fs := append_old (HeaderHash tip) fs in
                let* (_, batch) := on_state (PutForkState fs batch) in
                ret (Some fs, batch)
            | None => ret (None, batch)
            end in
          let* _ := writeBatch batch in
          let* parent := read (GetBlock (PrevHeaderHash tip)) in
          let* _ := modify (set_lastBlock parent) in
          Rollback_loop n' fuel forkedHeaderHash forkState hashPath
  end.

Definition Rollback (fuel : nat) (forkedHeaderHash : string) (forkState : option ForkState)
  : M (list string * option ForkState) :=
  Rollback_loop fuel fuel forkedHeaderHash forkState [].

(** [GetForkPoint]; the result is Go's triple, with zero values next to a
    non-nil error. *)
Fixpoint GetForkPoint_loop (n : nat) (block : option Block) (hashPath : list string)
    : M (string * list string * option error) :=
  match n with
  | O => out_of_fuel
  | S n' =>
      match block with
      | None => panic
      | Some blk =>
          let* mainchainBlock := read (GetBlockByNumber (BlockNumber blk)) in
          if match mainchainBlock with
             | Some m => DeepEqual (HeaderHash m) (HeaderHash blk)
             | None => false
             end
          then ret (HeaderHash blk, hashPath, None)
          else if BlockNumber blk =? 0 then ret (""%string, [], Some ErrAlternateGenesis)
          else
            let hashPath := hashPath ++ [HeaderHash blk] in
            let* parent := read (GetBlock (PrevHeaderHash blk)) in
            match parent with
            | None => ret (""%string, [], Some ErrNotFound)
            | Some _ => GetForkPoint_loop n' parent hashPath
            end
      end
  end.

Definition GetForkPoint (fuel : nat) (block : option Block)
  : M (string * list string * option error) :=
  GetForkPoint_loop fuel block [].

(** The first loop of [AddChain]: the index just past the first entry of
    the path that is the current tip, or 0 when there is none.  [rest] is
    the part of the path from index [i] on. *)
Fixpoint AddChain_start (rest : list string) (i : Z) : M Z :=
  match rest with
  | [] => ret 0
  | h :: rest' =>
      let* tip := gets lastBlock in
      let* tip := deref tip in
      if DeepEqual h (HeaderHash tip) then ret (i + 1)
      else AddChain_start rest' (i + 1)
  end.

(** The second loop of [AddChain], over [hashPath[start:]]; the block read
    from the store is first used by [applyBlock], by a method call. *)
Fixpoint AddChain_loop (rest : list string) : M bool :=
  match rest with
  | [] => ret true
  | headerHash :: rest' =>
      let* block := read (GetBlock headerHash) in
      let batch := Some GetBatch in
      let* block := deref block in
      let* (ok, batch) := applyBlock block batch in
      if negb ok then ret false
      else
        let* batch := updateChainState block batch in
        let* _ := writeBatch batch in
        AddChain_loop rest'
  end.

Definition AddChain (hashPath : list string) (forkState : ForkState) : M bool :=
  let* start := AddChain_start hashPath 0 in
  let* ok := AddChain_loop (drop (Z.to_nat start) hashPath) in
  if negb ok then ret false
  else
    let* _ := update_state DeleteForkState in
    ret true.

Definition discovered (forkHeaderHash : string) (hashPath : list string) (fs : ForkState)
  : ForkState :=
  {| InitiatorHeaderhash := InitiatorHeaderhash fs;
     ForkPointHeaderhash := forkHeaderHash;
     OldMainchainHashPath := OldMainchainHashPath fs;
     NewMainchainHashPath := hashPath |}.

(** The part of [forkRecovery] after the first [if]: it reads the
    function-level variables [forkHeaderHash] and [hashPath]. *)
Definition forkRecovery_finish (fuel : nat) (forkHeaderHash : string)
    (hashPath : list string) (forkState : ForkState) : M bool :=
  let* rollbackDone :=
    if (0 <? length (OldMainchainHashPath forkState))%nat then
      let* b := read (fun s =>
                  match last (OldMainchainHashPath forkState) with
                  | Some h => GetBlock h s
                  | None => None
                  end) in
      ret match b with
          | Some b => DeepEqual (PrevHeaderHash b) (ForkPointHeaderhash forkState)
          | None => false
          end
    else ret false in
  let* (oldHashPath, forkState) :=
    if negb rollbackDone then
      let* (oldHashPath, fs) := Rollback fuel forkHeaderHash (Some forkState) in
      ret (oldHashPath, default forkState fs)
    else ret (OldMainchainHashPath forkState, forkState) in
  let* ok := AddChain (reverse hashPath) forkState in
  if negb ok then
    let* _ := Rollback fuel forkHeaderHash None in
    let* _ := AddChain (reverse oldHashPath) forkState in
    ret false
  else
    let* _ := modify (set_triggerMiner true) in
    ret true.

(** [forkRecovery].  In the else branch the results of [GetForkPoint] are
    bound with [:=] to variables of that block, which hide the
    function-level [forkHeaderHash] and [hashPath]; those keep their zero
    values. *)
Definition forkRecovery (fuel : nat) (block : Block) (forkState : ForkState) : M bool :=
  let* (forkHeaderHash, hashPath, forkState) :=
    if (0 <? String.length (ForkPointHeaderhash forkState))%nat then
      ret (ForkPointHeaderhash forkState, NewMainchainHashPath forkState, forkState)
    else
      let* (forkHeaderHash', hashPath', _) := GetForkPoint fuel (Some block) in
      let forkState := discovered forkHeaderHash' hashPath' forkState in
      let* _ := on_state (PutForkState forkState None) in
      ret (""%string, [], forkState) in
  forkRecovery_finish fuel forkHeaderHash hashPath forkState.

Definition new_fork_state (initiator : string) : ForkState :=
  {| InitiatorHeaderhash := initiator; ForkPointHeaderhash := "";
     OldMainchainHashPath := []; NewMainchainHashPath := [] |}.

(** [addBlock] returns the two flags and the batch it has filled. *)
Definition addBlock (fuel : nat) (block : Block) (batch : option Batch)
  : M (bool * bool * option Batch) :=
  let* blockSizeLimit := read (fun s => GetBlockSizeLimit E s block) in
  if match blockSizeLimit with
     | Some limit => limit <? Size block
     | None => false
     end
  then ret (false, false, batch)
  else
    let* tip := gets lastBlock in
    let* tip := deref tip in
    let* (applied, batch) :=
      if DeepEqual (HeaderHash tip) (PrevHeaderHash block) then applyBlock block batch
      else ret (true, batch) in
    if negb applied then ret (false, false, batch)
    else
      let* (err, batch) := on_state (PutBlock block batch) in
      if err : bool then ret (false, false, batch)
      else
        let* lastBlockMetadata := read (GetBlockMetadata (HeaderHash tip)) in
        let* newBlockMetadata := read (GetBlockMetadata (HeaderHash block)) in
        let* lastBlockMetadata := deref lastBlockMetadata in
        let lastBlockDifficulty := uint256_of_bytes (TotalDifficulty lastBlockMetadata) in
        let* newBlockMetadata := deref newBlockMetadata in
        let newBlockDifficulty := uint256_of_bytes (TotalDifficulty newBlockMetadata) in
        if lastBlockDifficulty <? newBlockDifficulty then
          if negb (DeepEqual (HeaderHash tip) (PrevHeaderHash block)) then
            let forkState := new_fork_state (HeaderHash block) in
            let* (err, batch) := on_state (PutForkState forkState batch) in
            if err : bool then ret (false, true, batch)
            else
              let* _ := writeBatch batch in
              let* ok := forkRecovery fuel block forkState in
              ret (ok, true, batch)
          else
            let* batch := updateChainState block batch in
            let* _ := modify (fun c =>
                        set_txPool (filter (fun e => ¬ IsStale E (BlockNumber block) e)
                                      (txPool c)) c) in
            let* _ := modify (set_triggerMiner true) in
            ret (true, false, batch)
        else ret (true, false, batch).

Definition AddBlock (fuel : nat) (block : Block) : M bool :=
  let* height := Height in
  let* cfg := gets config in
  if BlockNumber block <? wrap64 (height - ReorgLimit cfg) then ret false
  else
    let* stored := read (GetBlock (HeaderHash block)) in
    if bool_decide (is_Some stored) then ret false
    else
      let batch := Some GetBatch in
      let* (blockFlag, forkFlag, batch) := addBlock fuel block batch in
      if blockFlag : bool then
        let* _ := if negb forkFlag then writeBatch batch else ret tt in
        ret true
      else ret false.

(** The recipients of the genesis transfers, [txs[1:]]; reading [AddrsTo]
    off a transaction that is no transfer dereferences nil. *)
Fixpoint add_recipients (txs : list Tx) (addressesState : gmap string AddressState)
    : Result (gmap string AddressState) :=
  match txs with
  | [] => Ret addressesState
  | tx :: rest =>
      match Body tx with
      | TransferBody addrs_to _ _ =>
          add_recipients rest
            (foldl (fun acc addr => <[addr := GetDefaultAddressState addr]> acc)
                   addressesState addrs_to)
      | _ => Panic
      end
  end.

Definition Load_cold (genesisBlock : Block) : M (option error) :=
  let* _ := on_state (PutBlock genesisBlock None) in
  let blockNumberMapping :=
    {| Headerhash := HeaderHash genesisBlock; PrevHeaderhash := PrevHeaderHash genesisBlock |} in
  let* _ := on_state (PutBlockNumberMapping (BlockNumber genesisBlock) blockNumberMapping None) in
  let* cfg := gets config in
  let parentDifficulty := StringToUInt256 E (GenesisDifficulty cfg) in
  let currentDifficulty :=
    DifficultyTrackerGet E (MiningSetpointBlocktime cfg) parentDifficulty in
  let blockMetaData := CreateBlockMetadata currentDifficulty currentDifficulty [] in
  let* _ := on_state (PutBlockMetaData (HeaderHash genesisBlock) blockMetaData None) in
  let addressesState :=
    foldl (fun acc gb => <[gb.1 := SetBalance gb.2 (GetDefaultAddressState gb.1)]> acc)
          (∅ : gmap string AddressState) (GenesisBalance E) in
  let txs := GenesisTransactions E in
  let* addressesState := lift_result (add_recipients (drop 1 txs) addressesState) in
  let* coinBase := deref (index txs 0) in
  let* addrTo := match Body coinBase with
                 | CoinBaseBody addr_to _ => ret addr_to
                 | _ => panic
                 end in
  let addressesState := <[addrTo := GetDefaultAddressState addrTo]> addressesState in
  if negb (ValidateExtendedCoinbase E coinBase (GenesisBlockNumber E))
  then ret (Some ErrCoinbaseValidation)
  else
    let addressesState := CoinBaseApplyStateChanges E coinBase addressesState in
    let addressesState :=
      foldl (fun acc tx => TransferApplyStateChanges E tx acc) addressesState (drop 1 txs) in
    let* _ := on_state (PutAddressesState addressesState None) in
    let* _ := on_state (UpdateTxMetadata genesisBlock None) in
    let* _ := on_state (PutChainHeight 0 None) in
    ret None.

Definition Load_warm (fuel : nat) (h : Z) : M (option error) :=
  let* tip := read (GetBlockByNumber h) in
  let* _ := modify (set_lastBlock tip) in
  let* tip := deref tip in
  let* blockMetadata := read (GetBlockMetadata (HeaderHash tip)) in
  match blockMetadata with
  | None => ret (Some ErrNotFound)
  | Some blockMetadata =>
      let* _ := modify (set_currentDifficulty (BlockDifficulty blockMetadata)) in
      let* forkState := read GetForkState in
      match forkState with
      | Some forkState =>
          let* b := read (GetBlock (InitiatorHeaderhash forkState)) in
          match b with
          | None => ret (Some ErrNotFound)
          | Some b =>
              let* _ := forkRecovery fuel b forkState in
              ret None
          end
      | None => ret None
      end
  end.

Definition Load (fuel : nat) (genesisBlock : Block) : M (option error) :=
  let* h := read GetChainHeight in
  match h with
  | None => Load_cold genesisBlock
  | Some h => Load_warm fuel h
  end.

End Chain.


(** ** The wall-clock helper ([ntp] package)

    The clock of the machine and the time servers are outside the
    program: a call of [time.Now().Second()] is an argument holding the
    second it read, and the replies of the servers are a function of the
    round and the server asked. *)

Module Ntp.

Record Settings := {
  Retries : Z;
  Servers : list string;
  Refresh : Z
}.

(** The [NTP] struct; [lock] tells whether the mutex pointer is set. *)
Record NTP := {
  lock : bool;
  drift : Z;
  lastUpdate : Z;
  settings : Settings
}.

(** What [ntp.Time(server)] gives: the second of the server's time, or an
    error. *)
Inductive Reply :=
  | Answer (second : Z)
  | Failure (err : string).

(** [GetNTP] builds the instance with its configuration only. *)
Definition GetNTP (cfg : Settings) : NTP :=
  {| lock := false; drift := 0; lastUpdate := 0; settings := cfg |}.

Section Clock.

Variable query : Z → string → Reply.

(** The inner loop of [UpdateTime], over the servers, in one round. *)
Fixpoint ask (retry : Z) (servers : list string) (err : option string) : Z + option string :=
  match servers with
  | [] => inr err
  | server :: rest =>
      match query retry server with
      | Answer t => inl t
      | Failure e => ask retry rest (Some e)
      end
  end.

(** The outer loop, [for retry := 0; retry <= Retries; retry++], over the
    rounds still to run. *)
Fixpoint rounds (retries : list Z) (servers : list string) (err : option string)
    : Z + option string :=
  match retries with
  | [] => inr err
  | retry :: more =>
      match ask retry servers err with
      | inl t => inl t
      | inr err => rounds more servers err
      end
  end.

(** [UpdateTime]; [now] is the local second read when a server has
    answered. *)
Definition UpdateTime (now : Z) (n : NTP) : Result (option string * NTP) :=
  if lock n then
    match rounds (seqZ 0 (Retries (settings n) + 1)) (Servers (settings n)) None with
    | inl t =>
        Ret (None, {| lock := lock n; drift := wrap64 (now - t); lastUpdate := wrap64 t;
                      settings := settings n |})
    | inr err => Ret (err, n)
    end
  else Panic.

(** [Time]; the three arguments are the local seconds read before the
    refresh test, inside [UpdateTime], and for the result. *)
Definition Time (now1 now_update now2 : Z) (n : NTP) : Result (Z * NTP) :=
  let currentTime := wrap64 (wrap64 now1 + drift n) in
  if Refresh (settings n) <? wrap64 (currentTime - lastUpdate n) then
    match UpdateTime now_update n with
    | Ret (_, n') => Ret (wrap64 (wrap64 now2 + drift n'), n')
    | Panic => Panic
    | OutOfFuel => OutOfFuel
    end
  else Ret (wrap64 (wrap64 now2 + drift n), n).

End Clock.

Definition failed (r : Reply) : bool :=
  match r with Failure _ => true | Answer _ => false end.

(** An instance whose mutex is set, as [UpdateTime] needs it. *)
Definition locked (cfg : Settings) (d u : Z) : NTP :=
  {| lock := true; drift := d; lastUpdate := u; settings := cfg |}.

End Ntp.
(** ** Notions used to state the properties *)

Section Notions.

Variable E : Env.

(** Whether [applyBlock] succeeds on a block in a given store, and the
    address states it then writes. *)
Definition block_applies (block : Block) (s : State) : bool :=
  (ApplyStateChanges E block (GetAddressesState (PrepareAddressesList E block) s)).1
  && negb (put_addresses_fail (faults s)).

Definition applied_addresses (block : Block) (s : State) : gmap string AddressState :=
  (ApplyStateChanges E block (GetAddressesState (PrepareAddressesList E block) s)).2.

(** The chain after one block of an alternative branch has been applied
    and committed: one batch holding the address states, the mapping at the
    block's height, the chain height and the transaction index; the block
    is the new tip and its transactions have left the pool. *)
Definition block_batch (block : Block) (s : State) : list WriteOp :=
  [ WPutAddressesState (applied_addresses block s);
    WPutBlockNumberMapping (BlockNumber block)
      {| Headerhash := HeaderHash block; PrevHeaderhash := PrevHeaderHash block |};
    WPutChainHeight (BlockNumber block);
    WUpdateTxMetadata block ].

Definition applied_block (block : Block) (c : Chain) : Chain :=
  {| config := config c; triggerMiner := triggerMiner c;
     state := commit (block_batch block (state c)) (state c);
     txPool := RemoveTxInBlock block (txPool c);
     lastBlock := Some block; currentDifficulty := currentDifficulty c |}.

(** Applying a path of blocks in order, stopping at the first block whose
    application fails. *)
Fixpoint apply_path (path : list Block) (c : Chain) : bool * Chain :=
  match path with
  | [] => (true, c)
  | block :: rest =>
      if block_applies block (state c) then apply_path rest (applied_block block c)
      else (false, c)
  end.

(** The writes of a cold start, in the order [Load] issues them. *)
Definition cold_start_writes (cfg : Config) (genesisBlock : Block)
    (addressesState : gmap string AddressState) : list WriteOp :=
  let d := DifficultyTrackerGet E (MiningSetpointBlocktime cfg)
             (StringToUInt256 E (GenesisDifficulty cfg)) in
  [ WPutBlock genesisBlock;
    WPutBlockNumberMapping (BlockNumber genesisBlock)
      {| Headerhash := HeaderHash genesisBlock;
         PrevHeaderhash := PrevHeaderHash genesisBlock |};
    WPutBlockMetaData (HeaderHash genesisBlock) (CreateBlockMetadata d d []);
    WPutAddressesState addressesState;
    WUpdateTxMetadata genesisBlock;
    WPutChainHeight 0 ].

End Notions.

(** The part of a path after the first occurrence of a hash, if any. *)
Fixpoint after_first (h : string) (path : list string) : option (list string) :=
  match path with
  | [] => None
  | x :: rest => if DeepEqual x h then Some rest else after_first h rest
  end.

(** A path without its prefix up to and including the tip. *)
Definition skip_past_tip (tip : string) (path : list string) : list string :=
  default path (after_first tip path).

(** Issuing writes one by one, with no batch. *)
Definition commit_each (ws : list WriteOp) (s : State) : State :=
  foldl (fun acc op => commit [op] acc) s ws.

Definition is_put_chain_height (op : WriteOp) : bool :=
  match op with WPutChainHeight _ => true | _ => false end.


(** A block is canonical when the main chain has a block at its height and
    that block has its header hash. *)
Definition canonical (s : State) (b : Block) : Prop :=
  ∃ m, GetBlockByNumber (BlockNumber b) s = Some m ∧ HeaderHash m = HeaderHash b.

(** The walk of [GetForkPoint] from a block: the fork point and the hashes
    passed on the way, or the reason the walk fails. *)
Inductive fork_walk (s : State) : Block → string * list string * option error → Prop :=
  | walk_found b :
      canonical s b → fork_walk s b (HeaderHash b, [], None)
  | walk_genesis b :
      ¬ canonical s b → BlockNumber b = 0 →
      fork_walk s b (""%string, [], Some ErrAlternateGenesis)
  | walk_missing b :
      ¬ canonical s b → BlockNumber b ≠ 0 → GetBlock (PrevHeaderHash b) s = None →
      fork_walk s b (""%string, [], Some ErrNotFound)
  | walk_parent b p fp path :
      ¬ canonical s b → BlockNumber b ≠ 0 → GetBlock (PrevHeaderHash b) s = Some p →
      fork_walk s p (fp, path, None) →
      fork_walk s b (fp, HeaderHash b :: path, None)
  | walk_parent_fails b p fp path e :
      ¬ canonical s b → BlockNumber b ≠ 0 → GetBlock (PrevHeaderHash b) s = Some p →
      fork_walk s p (fp, path, Some e) →
      fork_walk s b (""%string, [], Some e).

(** Parent links lead to lower heights: for one block, and for every
    stored block. *)
Definition descends (s : State) (b : Block) : bool :=
  match GetBlock (PrevHeaderHash b) s with
  | Some p => (0 <=? BlockNumber p) && (BlockNumber p <? BlockNumber b)
  | None => true
  end.

Definition parents_descend (s : State) : Prop :=
  map_Forall (λ _ b, descends s b = true) (blocks (db s)).

(** The result of a walk, seen from a caller that had already collected
    the hashes [acc]. *)
Definition after_path (acc : list string) (r : string * list string * option error)
  : string * list string * option error :=
  match r with
  | (fp, path, None) => (fp, acc ++ path, None)
  | (_, _, Some e) => (""%string, [], Some e)
  end.

(** ** Notions used for the further properties of block admission *)

Section AdmissionNotions.

Variable E : Env.

(** The first and the third admission check of [AddBlock], as the code
    evaluates them. *)
Definition window_rejects (c : Chain) (tip block : Block) : bool :=
  BlockNumber block <? wrap64 (BlockNumber tip - ReorgLimit (config c)).

Definition size_rejects (block : Block) (s : State) : bool :=
  match GetBlockSizeLimit E s block with
  | Some limit => limit <? Size block
  | None => false
  end.

(** The chain after a heavier block has extended the tip: one commit with
    the address states, the body, the mapping, the height and the
    transaction index; the block is the tip, its transactions and the stale
    ones have left the pool, and the miner is triggered. *)
Definition extension_batch (block : Block) (s : State) : list WriteOp :=
  [ WPutAddressesState (applied_addresses E block s);
    WPutBlock block;
    WPutBlockNumberMapping (BlockNumber block)
      {| Headerhash := HeaderHash block; PrevHeaderhash := PrevHeaderHash block |};
    WPutChainHeight (BlockNumber block);
    WUpdateTxMetadata block ].

Definition extended (block : Block) (c : Chain) : Chain :=
  {| config := config c; triggerMiner := true;
     state := commit (extension_batch block (state c)) (state c);
     txPool := filter (fun e => ¬ IsStale E (BlockNumber block) e)
                 (RemoveTxInBlock block (txPool c));
     lastBlock := Some block; currentDifficulty := currentDifficulty c |}.

(** The chain on which [forkRecovery] starts when [addBlock] has met a
    heavier block off the tip: the body and the new fork state committed
    together. *)
Definition fork_opened (block : Block) (c : Chain) : Chain :=
  set_state
    (commit [WPutBlock block; WPutForkState (new_fork_state (HeaderHash block))] (state c)) c.


End AdmissionNotions.


Definition is_put_block (op : WriteOp) : bool :=
  match op with WPutBlock _ => true | _ => false end.

(** The loop budget [n] covers the walk from the tip of the chain down to
    height 0 and one more turn. *)
Definition tip_bounded (n : nat) (c : Chain) : Prop :=
  match lastBlock c with
  | Some tip =>
      descends (state c) tip = true ∧ 0 ≤ BlockNumber tip
      ∧ (Z.to_nat (BlockNumber tip) + 2 ≤ n)%nat
  | None => (1 ≤ n)%nat
  end.

(** Heights go up by one along parent links: for one block, and for every
    stored block. *)
Definition steps_by_one (s : State) (b : Block) : bool :=
  match GetBlock (PrevHeaderHash b) s with
  | Some p => BlockNumber p + 1 =? BlockNumber b
  | None => true
  end.

Definition heights_step_by_one (s : State) : Prop :=
  map_Forall (λ _ b, steps_by_one s b = true) (blocks (db s)).
(** ** A concrete environment and a small block tree *)

Module Sample.

Definition credit (addr : string) (amount : Z) (m : gmap string AddressState)
  : gmap string AddressState :=
  let a := default (GetDefaultAddressState addr) (m !! addr) in
  <[addr := SetBalance (Balance a + amount) a]> m.

Definition use_ots (addr : string) (idx : Z) (m : gmap string AddressState)
  : gmap string AddressState :=
  let a := default (GetDefaultAddressState addr) (m !! addr) in
  <[addr := {| Address := Address a; Balance := Balance a; Nonce := Nonce a;
               OtsUsed := idx :: OtsUsed a |}]> m.

Definition credit_all (addrs : list string) (amounts : list Z) (sign : Z)
    (m : gmap string AddressState) : gmap string AddressState :=
  foldl (fun acc p => credit p.1 (sign * p.2) acc) m (zip addrs amounts).

Definition total (amounts : list Z) : Z := foldr Z.add 0 amounts.

Definition apply_tx (tx : Tx) (m : gmap string AddressState) : gmap string AddressState :=
  match Body tx with
  | CoinBaseBody addr_to amount => credit addr_to amount m
  | TransferBody addrs_to amounts fee =>
      use_ots (AddrFromPK tx) (OtsKey tx)
        (credit_all addrs_to amounts 1 (credit (AddrFromPK tx) (- (total amounts + fee)) m))
  | OtherBody => m
  end.

Definition revert_tx (tx : Tx) (m : gmap string AddressState) : gmap string AddressState :=
  match Body tx with
  | CoinBaseBody addr_to amount => credit addr_to (- amount) m
  | TransferBody addrs_to amounts fee =>
      credit_all addrs_to amounts (-1) (credit (AddrFromPK tx) (total amounts + fee) m)
  | OtherBody => m
  end.

Definition tx_valid (tx : Tx) (m : gmap string AddressState) : bool :=
  match Body tx with
  | TransferBody _ amounts fee =>
      let a := default (GetDefaultAddressState (AddrFromPK tx)) (m !! AddrFromPK tx) in
      (total amounts + fee <=? Balance a) && bool_decide (OtsKey tx ∉ OtsUsed a)
  | _ => true
  end.

Definition apply_block (b : Block) (m : gmap string AddressState)
  : bool * gmap string AddressState :=
  foldl (fun acc tx => (acc.1 && tx_valid tx acc.2, apply_tx tx acc.2)) (true, m)
        (Transactions b).

Definition touched (tx : Tx) : list string :=
  match Body tx with
  | CoinBaseBody addr_to _ => [AddrFromPK tx; addr_to]
  | TransferBody addrs_to _ _ => AddrFromPK tx :: addrs_to
  | OtherBody => [AddrFromPK tx]
  end.

Definition coinbase (h miner : string) : Tx :=
  {| TransactionHash := h; AddrFromPK := miner; OtsKey := 0; Body := CoinBaseBody miner 5 |}.

Definition transfer (h from : string) (ots : Z) (to : string) (amount : Z) : Tx :=
  {| TransactionHash := h; AddrFromPK := from; OtsKey := ots;
     Body := TransferBody [to] [amount] 0 |}.

Definition env : Env :=
  {| PrepareAddressesList := fun b => mjoin (touched <$> Transactions b);
     ApplyStateChanges := apply_block;
     RevertStateChanges := revert_tx;
     CoinBaseApplyStateChanges := apply_tx;
     TransferApplyStateChanges := apply_tx;
     ValidateExtendedCoinbase := fun _ _ => true;
     GenesisBalance := [("alpha"%string, 100); ("beta"%string, 0)];
     GenesisTransactions := [coinbase "cb0" "miner"; transfer "t0" "alpha" 0 "beta" 30];
     GenesisBlockNumber := 0;
     StringToUInt256 := fun _ => [x01];
     DifficultyTrackerGet := fun _ d => d;
     GetBlockSizeLimit := fun _ _ => Some 1000;
     IsStale := fun _ _ => false |}.

Definition cfg (limit : Z) : Config :=
  {| ReorgLimit := limit; MiningSetpointBlocktime := 60; GenesisDifficulty := "1" |}.

(** The genesis block [G], the main-chain block [B1], and the alternative
    branch [B1'], [B2']. *)
Definition G : Block :=
  {| HeaderHash := "G"; PrevHeaderHash := "0"; BlockNumber := 0; Size := 10;
     Transactions := GenesisTransactions env |}.
Definition B1 : Block :=
  {| HeaderHash := "B1"; PrevHeaderHash := "G"; BlockNumber := 1; Size := 10;
     Transactions := [coinbase "cb1" "miner"; transfer "t1" "alpha" 1 "beta" 10] |}.
Definition B1' : Block :=
  {| HeaderHash := "B1'"; PrevHeaderHash := "G"; BlockNumber := 1; Size := 10;
     Transactions := [coinbase "cb1'" "rival"; transfer "t1'" "alpha" 3 "gamma" 20] |}.
Definition B2' : Block :=
  {| HeaderHash := "B2'"; PrevHeaderHash := "B1'"; BlockNumber := 2; Size := 10;
     Transactions := [coinbase "cb2'" "rival"; transfer "t2'" "alpha" 4 "gamma" 5] |}.

(** Two blocks on top of [B1]: one no heavier than [B1], one that spends
    more than [alpha] owns. *)
Definition B2 : Block :=
  {| HeaderHash := "B2"; PrevHeaderHash := "B1"; BlockNumber := 2; Size := 10;
     Transactions := [coinbase "cb2" "miner"; transfer "t2" "alpha" 2 "beta" 10] |}.
Definition Bbad : Block :=
  {| HeaderHash := "Bbad"; PrevHeaderHash := "B1"; BlockNumber := 2; Size := 10;
     Transactions := [coinbase "cb3" "miner"; transfer "t3" "alpha" 2 "beta" 1000] |}.

(** A second side block on top of [G], not yet stored. *)
Definition S1 : Block :=
  {| HeaderHash := "S1"; PrevHeaderHash := "G"; BlockNumber := 1; Size := 10;
     Transactions := [coinbase "cbs" "rival"] |}.

Definition meta (d : byte) : BlockMetaData := CreateBlockMetadata [x01] [d] [].

Definition mapping_of (b : Block) : BlockNumberMapping :=
  {| Headerhash := HeaderHash b; PrevHeaderhash := PrevHeaderHash b |}.

Definition store_of (d : DB) : State := {| db := d; commits := []; faults := no_faults |}.

(** An empty store, as on the first start of a node. *)
Definition cold : Chain := CreateChain (cfg 0) (store_of empty_db).

(** A store whose main chain is [G], [B1], with the side block [B1'] stored
    and the difficulties of all four blocks known. *)
Definition db1 : DB :=
  {| blocks := <["B1'"%string := B1']> (<["B1"%string := B1]> (<["G"%string := G]> ∅));
     number_mapping := <[1 := mapping_of B1]> (<[0 := mapping_of G]> ∅);
     block_metadata :=
       <["S1"%string := meta x02]> (<["B2"%string := meta x03]>
         (<["B2'"%string := meta x04]>
            (<["B1'"%string := meta x02]>
            (<["B1"%string := meta x03]> (<["G"%string := meta x01]> ∅)))));
     addresses := (apply_block B1 (apply_block G
                     (<["alpha"%string := SetBalance 100 (GetDefaultAddressState "alpha")]> ∅)).2).2;
     chain_height := Some 1;
     fork_state := None;
     tx_metadata := index_txs B1 (index_txs G ∅) |}.

Definition chain1 (limit : Z) : Chain :=
  {| config := cfg limit; triggerMiner := false; state := store_of db1; txPool := [];
     lastBlock := Some B1; currentDifficulty := [x01] |}.

(** The fork state that [addBlock] opens for the initiator [B2']. *)
Definition fresh : ForkState := new_fork_state "B2'".

(** The address states [B1] touches, as the store holds them with [B1]
    applied. *)
Definition loaded : gmap string AddressState :=
  GetAddressesState (PrepareAddressesList env B1) (store_of db1).

(** The chain [forkRecovery] leaves when started in the fresh state on
    [chain1] for the initiator [B2']: two commits, and the miner trigger. *)
Definition after_recovery : Chain :=
  set_triggerMiner true
    (set_state
       (commit [WDeleteForkState]
          (commit [WPutForkState (discovered "G" ["B2'"; "B1'"]%string fresh)]
             (store_of db1)))
       (chain1 0)).


(** The genesis address states, and the chain a cold start leaves. *)
Definition genesis_addresses : gmap string AddressState :=
  apply_tx (transfer "t0" "alpha" 0 "beta" 30)
    (apply_tx (coinbase "cb0" "miner")
       (<["miner"%string := GetDefaultAddressState "miner"]>
          (<["beta"%string := GetDefaultAddressState "beta"]>
             (<["beta"%string := SetBalance 0 (GetDefaultAddressState "beta")]>
                (<["alpha"%string := SetBalance 100 (GetDefaultAddressState "alpha")]> ∅))))).

Definition after_cold : Chain :=
  set_state
    (commit_each (cold_start_writes env (cfg 0) G genesis_addresses) (store_of empty_db))
    cold.

End Sample.


(** ** More sample data, for the further properties *)

Module Sample2.

(** A block over the size limit, a block off the tip without metadata,
    and a heavier block on top of [B1]. *)
Definition Big : Block :=
  {| HeaderHash := "Big"; PrevHeaderHash := "B1"; BlockNumber := 2; Size := 2000;
     Transactions := [Sample.coinbase "cbb" "miner"] |}.
Definition S2 : Block :=
  {| HeaderHash := "S2"; PrevHeaderHash := "G"; BlockNumber := 1; Size := 10;
     Transactions := [Sample.coinbase "cbs2" "rival"] |}.
Definition B3 : Block :=
  {| HeaderHash := "B3"; PrevHeaderHash := "B1"; BlockNumber := 2; Size := 10;
     Transactions := [Sample.coinbase "cb3" "miner";
                      Sample.transfer "t3" "alpha" 5 "beta" 10] |}.

(** The store of [Sample.chain1] with the difficulty of [B3] known. *)
Definition db2 : DB := apply_op (WPutBlockMetaData "B3" (Sample.meta x05)) Sample.db1.

Definition chain2 : Chain :=
  {| config := Sample.cfg 0; triggerMiner := false; state := Sample.store_of db2;
     txPool := []; lastBlock := Some Sample.B1; currentDifficulty := [x01] |}.

(** [Sample.chain1] on a store where some writes fail. *)
Definition chain_faulty (f : Faults) : Chain :=
  {| config := Sample.cfg 0; triggerMiner := false;
     state := {| db := Sample.db1; commits := []; faults := f |};
     txPool := []; lastBlock := Some Sample.B1; currentDifficulty := [x01] |}.

Definition block_write_fails : Faults :=
  {| put_block_fails := true; put_addresses_fail := false; put_fork_state_fails := false |}.
Definition fork_state_write_fails : Faults :=
  {| put_block_fails := false; put_addresses_fail := false; put_fork_state_fails := true |}.

(** What [GetForkPoint] finds from [B2']. *)
Definition found : string * list string * option error :=
  ("G"%string, ["B2'"; "B1'"]%string, None).

(** A node that starts on the store of [Sample.chain1]; the same store
    with a chain height that has no mapping; the same store without
    metadata. *)
Definition restarted : Chain := CreateChain (Sample.cfg 0) (Sample.store_of Sample.db1).
Definition unmapped : Chain :=
  CreateChain (Sample.cfg 0) (Sample.store_of (apply_op (WPutChainHeight 5) Sample.db1)).
Definition no_metadata : Chain :=
  CreateChain (Sample.cfg 0)
    (Sample.store_of
       {| blocks := blocks Sample.db1; number_mapping := number_mapping Sample.db1;
          block_metadata := ∅; addresses := addresses Sample.db1;
          chain_height := chain_height Sample.db1; fork_state := None;
          tx_metadata := tx_metadata Sample.db1 |}).

(** The sample environment with a coinbase check that fails, and with an
    empty genesis. *)
Definition with_genesis (valid : bool) (txs : list Tx) : Env :=
  {| PrepareAddressesList := PrepareAddressesList Sample.env;
     ApplyStateChanges := ApplyStateChanges Sample.env;
     RevertStateChanges := RevertStateChanges Sample.env;
     CoinBaseApplyStateChanges := CoinBaseApplyStateChanges Sample.env;
     TransferApplyStateChanges := TransferApplyStateChanges Sample.env;
     ValidateExtendedCoinbase := fun _ _ => valid;
     GenesisBalance := GenesisBalance Sample.env;
     GenesisTransactions := txs;
     GenesisBlockNumber := 0;
     StringToUInt256 := StringToUInt256 Sample.env;
     DifficultyTrackerGet := DifficultyTrackerGet Sample.env;
     GetBlockSizeLimit := GetBlockSizeLimit Sample.env;
     IsStale := IsStale Sample.env |}.

Definition late_b (retry : Z) (server : string) : Ntp.Reply :=
  if (retry =? 1) && String.eqb server "b" then Ntp.Answer 50 else Ntp.Failure server.
Definition first_a (retry : Z) (server : string) : Ntp.Reply :=
  if String.eqb server "a" then Ntp.Answer 50 else Ntp.Failure server.

Definition two_servers (retries : Z) : Ntp.Settings :=
  {| Ntp.Retries := retries; Ntp.Servers := ["a"; "b"]%string; Ntp.Refresh := 100 |}.

End Sample2.

(** ** Running the monad *)

Lemma set_state_id (c : Chain) : set_state (state c) c = c.
Proof. by destruct c. Qed.

(** The equations of [bind] on each primitive; [step] uses them to run a
    method one statement at a time. *)
Lemma bind_ret {A B} (a : A) (k : A → M B) c : bind (ret a) k c = k a c.
Proof. reflexivity. Qed.
Lemma bind_gets {A B} (f : Chain → A) (k : A → M B) c : bind (gets f) k c = k (f c) c.
Proof. reflexivity. Qed.
Lemma bind_read {A B} (f : State → A) (k : A → M B) c :
  bind (read f) k c = k (f (state c)) c.
Proof. reflexivity. Qed.
Lemma bind_modify {B} (f : Chain → Chain) (k : unit → M B) c :
  bind (modify f) k c = k tt (f c).
Proof. reflexivity. Qed.
Lemma bind_on_state {A B} (f : State → A * State) (k : A → M B) c :
  bind (on_state f) k c = k (f (state c)).1 (set_state (f (state c)).2 c).
Proof. reflexivity. Qed.
Lemma bind_update_state {B} (f : State → State) (k : unit → M B) c :
  bind (update_state f) k c = k tt (set_state (f (state c)) c).
Proof. reflexivity. Qed.
Lemma bind_deref_Some {A B} (a : A) (k : A → M B) c : bind (deref (Some a)) k c = k a c.
Proof. reflexivity. Qed.
Lemma bind_deref_None {A B} (k : A → M B) c : bind (deref None) k c = Panic.
Proof. reflexivity. Qed.
Lemma bind_panic {A B} (k : A → M B) c : bind panic k c = Panic.
Proof. reflexivity. Qed.
Lemma bind_writeBatch {B} (ops : Batch) (k : unit → M B) c :
  bind (writeBatch (Some ops)) k c = k tt (set_state (WriteBatch ops (state c)) c).
Proof. reflexivity. Qed.
Lemma bind_result {A B} (m : M A) (k : A → M B) c a c' :
  m c = Ret (a, c') → bind m k c = k a c'.
Proof. unfold bind. by intros ->. Qed.
Lemma bind_result_panic {A B} (m : M A) (k : A → M B) c :
  m c = Panic → bind m k c = Panic.
Proof. unfold bind. by intros ->. Qed.

Ltac step :=
  first [ rewrite bind_ret | rewrite bind_gets | rewrite bind_read | rewrite bind_modify
        | rewrite bind_on_state | rewrite bind_update_state | rewrite bind_deref_Some
        | rewrite bind_deref_None | rewrite bind_panic | rewrite bind_writeBatch ];
  cbv beta iota.
Ltac steps := repeat step.

Lemma DeepEqual_refl (a : string) : DeepEqual a a = true.
Proof. unfold DeepEqual. by apply bool_decide_eq_true. Qed.

Lemma DeepEqual_ne (a b : string) : a ≠ b → DeepEqual a b = false.
Proof. unfold DeepEqual. by apply bool_decide_eq_false. Qed.

Section Admission.

Variable E : Env.

(** [applyBlock] either fails and leaves everything as it is, or puts one
    address-state write at the end of the batch. *)
Lemma applyBlock_fails block ops c :
  block_applies E block (state c) = false →
  applyBlock E block (Some ops) c = Ret ((false, Some ops), c).
Proof.
  unfold block_applies, applyBlock. step.
  destruct (ApplyStateChanges E block _) as [[] m]; cbn [fst snd negb andb]; [|done].
  step. unfold PutAddressesState, write_or_fail.
  destruct (put_addresses_fail _); cbn; [|done].
  intros _. by rewrite set_state_id.
Qed.

Lemma applyBlock_succeeds block ops c :
  block_applies E block (state c) = true →
  applyBlock E block (Some ops) c
  = Ret ((true, Some (ops ++ [WPutAddressesState (applied_addresses E block (state c))])), c).
Proof.
  unfold block_applies, applied_addresses, applyBlock. step.
  destruct (ApplyStateChanges E block _) as [[] m]; cbn [fst snd negb andb]; [|done].
  step. unfold PutAddressesState, write_or_fail.
  destruct (put_addresses_fail _); cbn; [done|].
  intros _. by rewrite set_state_id.
Qed.

(** C7.  A block that extends the tip and whose application fails, because
    [apply_state_changes] returns false or because the write of the address
    states fails, is not accepted, and [AddBlock] leaves the chain as it
    found it: no batch is committed, and the tip, the stored chain height
    and the mappings are those of before. *)
Theorem AddBlock_apply_failure_rejects (fuel : nat) (c : Chain) (tip block : Block) :
  lastBlock c = Some tip →
  PrevHeaderHash block = HeaderHash tip →
  (ApplyStateChanges E block
     (GetAddressesState (PrepareAddressesList E block) (state c))).1 = false
  ∨ put_addresses_fail (faults (state c)) = true →
  AddBlock E fuel block c = Ret (false, c).
Proof.
  intros Htip Hprev Hfail.
  assert (block_applies E block (state c) = false) as Happ.
  { unfold block_applies. destruct Hfail as [-> | ->]; [reflexivity|]. apply andb_false_r. }
  unfold AddBlock, Height. rewrite (bind_result _ _ c (BlockNumber tip) c).
  2:{ steps. rewrite Htip. by step. }
  step. destruct (_ <? _); [done|].
  step. destruct (bool_decide _); [done|].
  rewrite (bind_result _ _ c (false, false, Some GetBatch) c); [done|].
  unfold addBlock. step.
  destruct (GetBlockSizeLimit E (state c) block) as [limit|];
    [destruct (limit <? Size block); [done|]|].
  all: step; rewrite Htip; step; rewrite Hprev, DeepEqual_refl.
  all: rewrite (bind_result _ _ c (false, Some GetBatch) c); [done|].
  all: by apply applyBlock_fails.
Qed.

Lemma wrap64_below (h l : Z) :
  0 ≤ h < l → l < 2 ^ 64 → wrap64 (h - l) = h - l + 2 ^ 64.
Proof.
  intros Hh Hl. unfold wrap64.
  rewrite <- (Z_mod_plus_full (h - l) 1 (2 ^ 64)).
  apply Z.mod_small. lia.
Qed.

Lemma wrap64_small (z : Z) : 0 ≤ z < 2 ^ 64 → wrap64 z = z.
Proof. apply Z.mod_small. Qed.

Lemma AddBlock_window (fuel : nat) (c : Chain) (tip block : Block) :
  lastBlock c = Some tip →
  AddBlock E fuel block c
  = (if BlockNumber block <? wrap64 (BlockNumber tip - ReorgLimit (config c)) then ret false
     else
       let* stored := read (GetBlock (HeaderHash block)) in
       if bool_decide (is_Some stored) then ret false
       else
         let* (blockFlag, forkFlag, batch) := addBlock E fuel block (Some GetBatch) in
         if blockFlag : bool then
           let* _ := if negb forkFlag then writeBatch batch else ret tt in
           ret true
         else ret false) c.
Proof.
  intros Htip. unfold AddBlock, Height.
  rewrite (bind_result _ _ c (BlockNumber tip) c).
  2:{ steps. rewrite Htip. by step. }
  by step.
Qed.

(** While the tip is lower than the re-org limit, the unsigned subtraction
    wraps around and the height window rejects every block below
    [2^64 - (reorg_limit - tip.block_number)]. *)
Lemma AddBlock_window_wraps (fuel : nat) (c : Chain) (tip block : Block) :
  lastBlock c = Some tip →
  0 ≤ BlockNumber tip < ReorgLimit (config c) →
  ReorgLimit (config c) < 2 ^ 64 →
  BlockNumber block < 2 ^ 64 - (ReorgLimit (config c) - BlockNumber tip) →
  AddBlock E fuel block c = Ret (false, c).
Proof.
  intros Htip Hh Hl Hb. rewrite (AddBlock_window _ _ tip) by done.
  rewrite wrap64_below by done.
  destruct (Z.ltb_spec (BlockNumber block)
              (BlockNumber tip - ReorgLimit (config c) + 2 ^ 64)); [done|lia].
Qed.


End Admission.

(** ** Cold start *)

Lemma bind_lift_result {A B} (r : Result A) (k : A → M B) c :
  bind (lift_result r) k c
  = match r with Ret a => k a c | Panic => Panic | OutOfFuel => OutOfFuel end.
Proof. by destruct r. Qed.

Lemma bind_deref {A B} (o : option A) (k : A → M B) c :
  bind (deref o) k c = match o with Some a => k a c | None => Panic end.
Proof. by destruct o. Qed.



Section ColdStart.

Variable E : Env.

Lemma Load_cold_success (genesisBlock : Block) (c c' : Chain) :
  faults (state c) = no_faults →
  Load_cold E genesisBlock c = Ret (None, c') →
  ∃ addressesState,
    c' = set_state (commit_each (cold_start_writes E (config c) genesisBlock addressesState)
                      (state c)) c.
Proof.
  intros Hf. unfold Load_cold.
  step. unfold PutBlock, write_or_fail. rewrite Hf. cbn [put_block_fails fst snd write].
  steps. rewrite bind_lift_result.
  destruct (add_recipients _ _) as [addrs| |]; [|done..].
  rewrite bind_deref. destruct (index _ 0) as [coinBase|]; [|done].
  destruct (Body coinBase) as [addr_to amount| |]; [|done..].
  step. destruct (ValidateExtendedCoinbase E coinBase _); cbn [negb]; [|done].
  step. unfold PutAddressesState, write_or_fail. cbn. rewrite Hf. cbn.
  intros [= <-]. eexists. by destruct c.
Qed.

Lemma Load_cold_lastBlock (genesisBlock : Block) (c c' : Chain) (r : option error) :
  Load_cold E genesisBlock c = Ret (r, c') → lastBlock c' = lastBlock c.
Proof.
  unfold Load_cold. steps. rewrite bind_lift_result.
  destruct (add_recipients _ _) as [addrs| |]; [|done..].
  rewrite bind_deref. destruct (index _ 0) as [coinBase|]; [|done].
  destruct (Body coinBase) as [addr_to amount| |]; [|done..].
  step. destruct (ValidateExtendedCoinbase E coinBase _); cbn [negb].
  - steps. by intros [= <- <-].
  - by intros [= <- <-].
Qed.

Lemma Load_on_cold_store (fuel : nat) (genesisBlock : Block) (c : Chain) :
  GetChainHeight (state c) = None →
  Load E fuel genesisBlock c = Load_cold E genesisBlock c.
Proof. intros H. unfold Load. step. by rewrite H. Qed.


(** C10.  A cold start that succeeds never assigns the tip: starting from
    a freshly created chain, the tip is nil after [Load], and [Height] and
    every [AddBlock] then dereference nil. *)
Theorem Load_cold_start_tip_nil (fuel : nat) (cfg : Config) (s : State)
    (genesisBlock : Block) (c' : Chain) :
  GetChainHeight s = None →
  Load E fuel genesisBlock (CreateChain cfg s) = Ret (None, c') →
  lastBlock c' = None
  ∧ Height c' = Panic
  ∧ ∀ fuel' block, AddBlock E fuel' block c' = Panic.
Proof.
  intros Hcold HLoad. rewrite Load_on_cold_store in HLoad by done.
  apply Load_cold_lastBlock in HLoad. cbn in HLoad.
  assert (Height c' = Panic) as HH.
  { unfold Height. step. rewrite HLoad. by step. }
  split_and!; [done..|].
  intros fuel' block. unfold AddBlock. by rewrite (bind_result_panic _ _ _ HH).
Qed.

End ColdStart.

(** ** Fork-point discovery *)

Lemma canonical_test (s : State) (b : Block) :
  match GetBlockByNumber (BlockNumber b) s with
  | Some m => DeepEqual (HeaderHash m) (HeaderHash b)
  | None => false
  end = true ↔ canonical s b.
Proof.
  unfold canonical, DeepEqual. destruct (GetBlockByNumber _ s) as [m|]; split.
  - intros H%bool_decide_eq_true. eauto.
  - intros (m' & [= <-] & H). by apply bool_decide_eq_true.
  - done.
  - by intros (m' & [=] & _).
Qed.

Lemma GetForkPoint_loop_walk (n : nat) (c : Chain) :
  parents_descend (state c) →
  ∀ (block : Block) (acc : list string),
    descends (state c) block = true →
    0 ≤ BlockNumber block →
    (Z.to_nat (BlockNumber block) < n)%nat →
    ∃ r, GetForkPoint_loop n (Some block) acc c = Ret (after_path acc r, c)
         ∧ fork_walk (state c) block r.
Proof.
  intros Hall. induction n as [|n IH]; intros block acc Hdesc Hpos Hfuel; [lia|].
  cbn [GetForkPoint_loop]. step.
  destruct (match GetBlockByNumber (BlockNumber block) (state c) with
            | Some m => DeepEqual (HeaderHash m) (HeaderHash block)
            | None => false
            end) eqn:Hcan.
  { apply canonical_test in Hcan. eexists (_, [], None). split; [|by constructor].
    cbn. by rewrite app_nil_r. }
  assert (¬ canonical (state c) block) as Hnot.
  { intros H%canonical_test. congruence. }
  destruct (Z.eqb_spec (BlockNumber block) 0) as [H0|H0].
  { eexists (_, _, Some _). split; [done|]. by apply walk_genesis. }
  step. destruct (GetBlock (PrevHeaderHash block) (state c)) as [p|] eqn:Hp.
  2:{ eexists (_, _, Some _). split; [done|]. by apply walk_missing. }
  unfold descends in Hdesc. rewrite Hp in Hdesc.
  apply andb_true_iff in Hdesc as [Hp0%Z.leb_le Hp1%Z.ltb_lt].
  destruct (IH p (acc ++ [HeaderHash block])) as ([[fp path] [e|]] & Hrun & Hwalk);
    [by eapply (Hall _ _ Hp) | done | lia | |].
  - exists (""%string, [], Some e). split; [done|]. by eapply walk_parent_fails.
  - exists (fp, HeaderHash block :: path, None). split; [|by eapply walk_parent].
    rewrite Hrun. cbn. by rewrite <- app_assoc.
Qed.

(** Whenever the loop returns, on any store, it returns the result of the
    walk and leaves the chain as it is. *)
Lemma GetForkPoint_loop_sound (n : nat) (c c' : Chain) :
  ∀ (block : Block) (acc : list string) (r' : string * list string * option error),
    GetForkPoint_loop n (Some block) acc c = Ret (r', c') →
    c' = c ∧ ∃ r, r' = after_path acc r ∧ fork_walk (state c) block r.
Proof.
  induction n as [|n IH]; intros block acc r'; [done|].
  cbn [GetForkPoint_loop]. step.
  destruct (match GetBlockByNumber (BlockNumber block) (state c) with
            | Some m => DeepEqual (HeaderHash m) (HeaderHash block)
            | None => false
            end) eqn:Hcan.
  { apply canonical_test in Hcan. intros [= <- <-]. split; [done|].
    eexists (_, [], None). split; [|by constructor]. cbn. by rewrite app_nil_r. }
  assert (¬ canonical (state c) block) as Hnot.
  { intros H%canonical_test. congruence. }
  destruct (Z.eqb_spec (BlockNumber block) 0) as [H0|H0].
  { intros [= <- <-]. split; [done|].
    eexists (_, _, Some _). split; [done|]. by apply walk_genesis. }
  step. destruct (GetBlock (PrevHeaderHash block) (state c)) as [p|] eqn:Hp.
  2:{ intros [= <- <-]. split; [done|].
      eexists (_, _, Some _). split; [done|]. by apply walk_missing. }
  intros Hrun. destruct (IH _ _ _ Hrun) as (-> & [[fp path] [e|]] & -> & Hwalk).
  - split; [done|]. exists (""%string, [], Some e). split; [done|].
    by eapply walk_parent_fails.
  - split; [done|]. exists (fp, HeaderHash block :: path, None).
    split; [|by eapply walk_parent]. cbn. by rewrite <- app_assoc.
Qed.

(** C9.  From a block of an alternative branch, [GetForkPoint] follows the
    parent links through the store and returns the walk's result: the hash
    of the first block met that is the canonical block at its height, with
    the hashes of the blocks passed before it, or an error when a parent is
    not stored or a block of height 0 is met that is not canonical.  With
    parent links that lead to lower heights, a budget above the height of
    the block is enough for the walk to end. *)
Theorem GetForkPoint_walk (fuel : nat) (c : Chain) (block : Block) :
  parents_descend (state c) →
  descends (state c) block = true →
  0 ≤ BlockNumber block →
  (Z.to_nat (BlockNumber block) < fuel)%nat →
  ∃ r, GetForkPoint fuel (Some block) c = Ret (r, c) ∧ fork_walk (state c) block r.
Proof.
  intros Hall Hdesc Hpos Hfuel.
  destruct (GetForkPoint_loop_walk fuel c Hall block [] Hdesc Hpos Hfuel)
    as ([[fp path] e] & Hrun & Hwalk).
  exists (fp, path, e). split; [|done].
  unfold GetForkPoint. rewrite Hrun. cbn.
  destruct e; [|done]. by inversion Hwalk; subst.
Qed.

(** ** Applying an alternative branch *)

Lemma AddChain_start_drop (c : Chain) (tip : Block) :
  lastBlock c = Some tip →
  ∀ rest pre, ∃ start,
    AddChain_start rest (Z.of_nat (length pre)) c = Ret (start, c)
    ∧ drop (Z.to_nat start) (pre ++ rest)
      = default (pre ++ rest) (after_first (HeaderHash tip) rest).
Proof.
  intros Htip. induction rest as [|x rest IH]; intros pre.
  - exists 0. by cbn.
  - cbn [AddChain_start after_first]. step. rewrite Htip. step.
    destruct (DeepEqual x (HeaderHash tip)).
    + exists (Z.of_nat (length pre) + 1). split; [done|].
      replace (Z.to_nat (Z.of_nat (length pre) + 1)) with (length pre + 1)%nat by lia.
      cbn [default]. rewrite (cons_middle x pre rest), app_assoc.
      apply drop_app_length'. rewrite length_app. cbn. lia.
    + destruct (IH (pre ++ [x])) as (start & Hrun & Hdrop).
      exists start. rewrite length_app, Nat2Z.inj_add in Hrun. cbn in Hrun.
      split; [done|]. by rewrite <- app_assoc in Hdrop.
Qed.

Section AddChain.

Variable E : Env.

Lemma AddChain_loop_apply_path (hashes : list string) (path : list Block) :
  ∀ c, Forall2 (λ h b, GetBlock h (state c) = Some b) hashes path →
       AddChain_loop E hashes c = Ret (apply_path E path c).
Proof.
  revert path. induction hashes as [|h hashes IH]; intros path c Hall.
  - by inversion Hall.
  - inversion Hall as [|? block ? rest Hh Hrest]; subst.
    cbn [AddChain_loop apply_path]. step. rewrite Hh. step.
    destruct (block_applies E block (state c)) eqn:Happ.
    + rewrite (bind_result _ _ _ _ _ (applyBlock_succeeds E block GetBatch c Happ)).
      cbv beta iota. cbn [negb]. unfold updateChainState, updateBlockNumberMapping.
      steps. rewrite <- (IH rest (applied_block E block c)); [by destruct c|].
      eapply Forall2_impl; [exact Hrest|]. done.
    + by rewrite (bind_result _ _ _ _ _ (applyBlock_fails E block GetBatch c Happ)).
Qed.

Lemma apply_path_fork_state (path : list Block) :
  ∀ c, fork_state (db (state (apply_path E path c).2)) = fork_state (db (state c)).
Proof.
  induction path as [|block path IH]; intros c; cbn; [done|].
  destruct (block_applies E block (state c)); [|done]. by rewrite IH.
Qed.

(** C6.  [AddChain] drops the path up to and including the current tip,
    then applies the blocks named by the rest in order, each in its own
    batch (address states, mapping, chain height, transaction index), the
    applied block becoming the tip.  It stops with false at the first
    block whose application fails, and then the persisted fork state is
    left as it was; when every block has been applied it deletes the fork
    state and returns true. *)
Theorem AddChain_applies_path (hashPath : list string) (forkState : ForkState)
    (c : Chain) (tip : Block) (path : list Block) :
  lastBlock c = Some tip →
  Forall2 (λ h b, GetBlock h (state c) = Some b)
          (skip_past_tip (HeaderHash tip) hashPath) path →
  let r := apply_path E path c in
  AddChain E hashPath forkState c
  = Ret (if r.1 then (true, set_state (DeleteForkState (state r.2)) r.2) else (false, r.2))
  ∧ (r.1 = false → fork_state (db (state r.2)) = fork_state (db (state c)))
  ∧ (r.1 = true → fork_state (db (DeleteForkState (state r.2))) = None).
Proof.
  intros Htip Hpath r. split_and!; [|intros _; apply apply_path_fork_state|done].
  destruct (AddChain_start_drop c tip Htip hashPath []) as (start & Hstart & Hdrop).
  unfold AddChain. rewrite (bind_result _ _ _ _ _ Hstart). cbv beta. cbn in Hdrop.
  fold (skip_past_tip (HeaderHash tip) hashPath) in Hdrop. rewrite Hdrop.
  pose proof (AddChain_loop_apply_path _ path c Hpath) as Hloop.
  subst r. destruct (apply_path E path c) as [ok c'].
  rewrite (bind_result _ _ _ _ _ Hloop). by destruct ok.
Qed.

End AddChain.

(** ** Reverting a block and rolling back *)

Section Rollback.

Variable E : Env.

(** The loop [for i := len(txs) - 1; i <= 0; i--] does not run at all on
    two transactions or more. *)
Lemma revert_loop_skips (fuel : nat) (txs : list Tx) (m : gmap string AddressState) :
  (2 ≤ length txs)%nat →
  revert_loop E fuel txs (Z.of_nat (length txs) - 1) m = Ret m.
Proof.
  intros Hlen.
  destruct (Z.leb_spec (Z.of_nat (length txs) - 1) 0) as [H|H]; [lia|].
  apply Z.leb_gt in H. destruct fuel; cbn [revert_loop]; by rewrite H.
Qed.

(** On at most one transaction it runs off the front of the slice. *)
Lemma revert_loop_panics (fuel : nat) (txs : list Tx) (m : gmap string AddressState) :
  (length txs ≤ 1)%nat →
  revert_loop E (S (S fuel)) txs (Z.of_nat (length txs) - 1) m = Panic.
Proof.
  intros Hlen. destruct txs as [|tx [|]]; cbn in Hlen; [| |lia].
  - done.
  - change (Z.of_nat (length [tx]) - 1) with 0. cbn [revert_loop].
    change (0 <=? 0) with true. change (index [tx] 0) with (Some tx). cbv iota.
    destruct (RevertStateChanges E tx m !! AddrFromPK tx); [|done].
    by destruct fuel.
Qed.

Lemma RemoveBlockFromMainchain_reverts_nothing (fuel : nat) (block : Block)
    (blockNumber : Z) (ops : Batch) (c : Chain) :
  (2 ≤ length (Transactions block))%nat →
  put_addresses_fail (faults (state c)) = false →
  RemoveBlockFromMainchain E fuel block blockNumber (Some ops) c
  = Ret (Some (ops ++ [WPutChainHeight (wrap64 (BlockNumber block - 1))]
                   ++ [WRollbackTxMetadata block]
                   ++ [WPutAddressesState
                         (GetAddressesState (PrepareAddressesList E block) (state c))]),
         set_state (RemoveBlockNumberMapping (BlockNumber block) (state c))
           (set_txPool (AddTxFromBlock block blockNumber (txPool c)) c)).
Proof.
  intros Hlen Hf. unfold RemoveBlockFromMainchain.
  step. rewrite bind_lift_result, revert_loop_skips by done.
  steps. unfold PutAddressesState, write_or_fail. cbn. rewrite Hf. cbn.
  rewrite <- !app_assoc. by destruct c.
Qed.

Lemma RemoveBlockFromMainchain_panics (fuel : nat) (block : Block)
    (blockNumber : Z) (batch : option Batch) (c : Chain) :
  (length (Transactions block) ≤ 1)%nat →
  RemoveBlockFromMainchain E (S (S fuel)) block blockNumber batch c = Panic.
Proof.
  intros Hlen. unfold RemoveBlockFromMainchain.
  step. by rewrite bind_lift_result, revert_loop_panics.
Qed.

(** [Rollback] leaves the loop at once when the tip is the canonical block
    at its height, whatever the fork point. *)
Lemma Rollback_stops_at_canonical_tip (fuel : nat) (forkedHeaderHash : string)
    (forkState : option ForkState) (c : Chain) (tip b m : Block) :
  lastBlock c = Some tip →
  GetBlock (HeaderHash tip) (state c) = Some b →
  GetBlockByNumber (BlockNumber b) (state c) = Some m →
  HeaderHash m = HeaderHash b →
  Rollback E (S fuel) forkedHeaderHash forkState c = Ret (([], forkState), c).
Proof.
  intros Htip Hb Hm Heq. unfold Rollback. cbn [Rollback_loop].
  step. rewrite Htip. step.
  destruct (DeepEqual (HeaderHash tip) forkedHeaderHash); [done|].
  step. rewrite Hb. step. step. rewrite Hm. step.
  by rewrite Heq, DeepEqual_refl.
Qed.

(** In the fresh state [forkRecovery] stores what [GetForkPoint] found in
    the fork state, and goes on with an empty fork-point hash and an empty
    path. *)
Lemma forkRecovery_fresh (fuel : nat) (block : Block) (forkState : ForkState) (c c1 : Chain)
    (fp : string) (path : list string) (e : option error) :
  ForkPointHeaderhash forkState = ""%string →
  GetForkPoint fuel (Some block) c = Ret ((fp, path, e), c1) →
  forkRecovery E fuel block forkState c
  = forkRecovery_finish E fuel "" [] (discovered fp path forkState)
      (set_state (PutForkState (discovered fp path forkState) None (state c1)).2 c1).
Proof.
  intros Hfresh Hfp. unfold forkRecovery. rewrite Hfresh. cbn [String.length Nat.ltb Nat.leb].
  rewrite (bind_result _ _ c (""%string, [], discovered fp path forkState)
             (set_state (PutForkState (discovered fp path forkState) None (state c1)).2 c1));
    [done|].
  rewrite (bind_result _ _ _ _ _ Hfp). cbv beta iota. by steps.
Qed.

End Rollback.

(** ** The properties on the sample block tree *)

(** C1.  With the main chain [G], [B1] and the tip [B1], rolling back to
    the fork point [G] removes nothing: the tip is the canonical block at
    its height, so the loop is left before the first removal, the returned
    path is empty, the fork state gets no entry and the tip is still [B1]. *)
Theorem Rollback_keeps_canonical_tip :
  HeaderHash Sample.B1 ≠ "G"%string
  ∧ Rollback Sample.env 10 "G" (Some Sample.fresh) (Sample.chain1 0)
    = Ret (([], Some Sample.fresh), Sample.chain1 0).
Proof. split; [done|]. by eapply Rollback_stops_at_canonical_tip. Qed.

(** C2.  In the fresh state, with the initiator [B2'] on the branch
    [B1'], [B2'] over the main chain [G], [B1]: [forkRecovery] stores the
    fork point [G] and the path [B2'], [B1'] in the fork state, then rolls
    back to the empty hash and applies the empty path.  It returns true
    after two commits, the discovered fork state and its deletion: the tip
    is still [B1] at height 1 and no address state has changed. *)
Theorem forkRecovery_fresh_drops_discovery :
  forkRecovery Sample.env 10 Sample.B2' Sample.fresh (Sample.chain1 0)
  = Ret (true, Sample.after_recovery)
  ∧ lastBlock Sample.after_recovery = Some Sample.B1
  ∧ chain_height (db (state Sample.after_recovery)) = Some 1
  ∧ number_mapping (db (state Sample.after_recovery)) !! 1
    = Some (Sample.mapping_of Sample.B1)
  ∧ addresses (db (state Sample.after_recovery)) = addresses Sample.db1.
Proof. split; [vm_compute; reflexivity|]. by split_and!. Qed.

(** C3.  Removing [B1], which has a coinbase and a transfer of 10 from
    alpha, reverts neither: the address states put into the batch are the
    ones loaded from the store, with alpha at 60, where reverting the two
    transactions from last to first gives 70. *)
Theorem RemoveBlockFromMainchain_reverts_no_transaction :
  ∃ c', RemoveBlockFromMainchain Sample.env 10 Sample.B1 1 (Some GetBatch) (Sample.chain1 0)
        = Ret (Some [WPutChainHeight 0; WRollbackTxMetadata Sample.B1;
                     WPutAddressesState Sample.loaded], c')
        ∧ Balance <$> Sample.loaded !! "alpha"%string = Some 60
        ∧ Balance <$> foldl (fun m tx => RevertStateChanges Sample.env tx m) Sample.loaded
                        (reverse (Transactions Sample.B1)) !! "alpha"%string = Some 70.
Proof.
  eexists. split; [|by vm_compute].
  by rewrite RemoveBlockFromMainchain_reverts_nothing.
Qed.

(** C4.  With the tip at height 1 and a re-org limit of 10, the block [B2]
    of height 2 is not below [1 - 10] over the integers, yet the height
    window rejects it: the unsigned subtraction gives [2^64 - 9]. *)
Theorem AddBlock_window_rejects_above_tip :
  (BlockNumber Sample.B2 <? BlockNumber Sample.B1 - ReorgLimit (Sample.cfg 10)) = false
  ∧ wrap64 (BlockNumber Sample.B1 - ReorgLimit (Sample.cfg 10)) = 2 ^ 64 - 9
  ∧ GetBlock (HeaderHash Sample.B2) (state (Sample.chain1 10)) = None
  ∧ AddBlock Sample.env 10 Sample.B2 (Sample.chain1 10) = Ret (false, Sample.chain1 10).
Proof.
  split_and!; [done..|].
  by apply (AddBlock_window_wraps Sample.env 10 (Sample.chain1 10) Sample.B1).
Qed.



(** The path [G], [B1], [B1'] on [chain1]: only [B1'] is applied. *)
Lemma AddChain_applies_path_witness :
  AddChain Sample.env ["G"; "B1"; "B1'"]%string Sample.fresh (Sample.chain1 0)
  = Ret (true, set_state
                 (DeleteForkState (state (applied_block Sample.env Sample.B1' (Sample.chain1 0))))
                 (applied_block Sample.env Sample.B1' (Sample.chain1 0))).
Proof.
  destruct (AddChain_applies_path Sample.env ["G"; "B1"; "B1'"]%string Sample.fresh
              (Sample.chain1 0) Sample.B1 [Sample.B1']) as (Hrun & _ & _).
  - reflexivity.
  - repeat constructor.
  - exact Hrun.
Defined.

(** [Bbad] extends the tip and overspends. *)
Lemma AddBlock_apply_failure_rejects_witness :
  AddBlock Sample.env 10 Sample.Bbad (Sample.chain1 0) = Ret (false, Sample.chain1 0).
Proof.
  apply (AddBlock_apply_failure_rejects Sample.env 10 (Sample.chain1 0) Sample.B1 Sample.Bbad).
  - reflexivity.
  - reflexivity.
  - left. vm_compute. reflexivity.
Defined.

(** The cold start of the sample genesis on the empty store. *)
Lemma Load_sample_cold_start :
  Load Sample.env 10 Sample.G Sample.cold = Ret (None, Sample.after_cold).
Proof. vm_compute. reflexivity. Qed.



(** The walk from [B2'] on [chain1]. *)
Lemma GetForkPoint_walk_witness :
  ∃ r, GetForkPoint 10 (Some Sample.B2') (Sample.chain1 0) = Ret (r, Sample.chain1 0)
       ∧ fork_walk (state (Sample.chain1 0)) Sample.B2' r.
Proof.
  apply (GetForkPoint_walk 10 (Sample.chain1 0) Sample.B2').
  - unfold parents_descend. apply (bool_decide_unpack _). vm_compute. exact I.
  - vm_compute. reflexivity.
  - vm_compute. discriminate.
  - vm_compute. lia.
Defined.

(** The tip after the sample cold start. *)
Lemma Load_cold_start_tip_nil_witness :
  lastBlock Sample.after_cold = None
  ∧ Height Sample.after_cold = Panic
  ∧ AddBlock Sample.env 10 Sample.B1 Sample.after_cold = Panic.
Proof.
  destruct (Load_cold_start_tip_nil Sample.env 10 (Sample.cfg 0)
              (Sample.store_of empty_db) Sample.G Sample.after_cold) as (Htip & HH & HA).
  - reflexivity.
  - apply Load_sample_cold_start.
  - split_and!; [exact Htip | exact HH | apply HA].
Defined.

(** ** Further properties of block admission *)

Section AdmissionMore.

Variable E : Env.

(** What [AddBlock] does once the window and the duplicate check have let
    the block through. *)
Lemma AddBlock_admitted (fuel : nat) (c : Chain) (tip block : Block) :
  lastBlock c = Some tip →
  window_rejects c tip block = false →
  GetBlock (HeaderHash block) (state c) = None →
  AddBlock E fuel block c
  = (let* (blockFlag, forkFlag, batch) := addBlock E fuel block (Some GetBatch) in
     if blockFlag : bool then
       let* _ := if negb forkFlag then writeBatch batch else ret tt in
       ret true
     else ret false) c.
Proof.
  intros Htip Hwin Hnew. rewrite (AddBlock_window _ _ _ tip) by done.
  unfold window_rejects in Hwin. rewrite Hwin. step.
  by rewrite Hnew, bool_decide_eq_false_2 by (by intros [??]).
Qed.

(** X1.  A block whose header hash is already stored is rejected, and
    nothing changes. *)
Theorem AddBlock_duplicate_rejected (fuel : nat) (c : Chain) (tip block stored : Block) :
  lastBlock c = Some tip →
  GetBlock (HeaderHash block) (state c) = Some stored →
  AddBlock E fuel block c = Ret (false, c).
Proof.
  intros Htip Hdup. rewrite (AddBlock_window _ _ _ tip) by done.
  destruct (_ <? _); [done|]. step. rewrite Hdup.
  by rewrite bool_decide_eq_true_2 by eauto.
Qed.

(** X2.  A block larger than the size limit of the store is rejected, and
    nothing changes; no batch is written. *)
Theorem AddBlock_oversize_rejected (fuel : nat) (c : Chain) (tip block : Block) (limit : Z) :
  lastBlock c = Some tip →
  GetBlockSizeLimit E (state c) block = Some limit →
  limit < Size block →
  AddBlock E fuel block c = Ret (false, c).
Proof.
  intros Htip Hlimit Hsize. rewrite (AddBlock_window _ _ _ tip) by done.
  destruct (_ <? _); [done|]. step.
  destruct (bool_decide _); [done|].
  rewrite (bind_result _ _ c (false, false, Some GetBatch) c); [done|].
  unfold addBlock. step. rewrite Hlimit.
  by destruct (Z.ltb_spec limit (Size block)); [|lia].
Qed.

(** X3.  When the store cannot take the block body, the block is rejected
    and nothing changes, also when the block extends the tip and has been
    applied: the address states were only in the batch, which is dropped. *)
Theorem AddBlock_put_failure_rejected (fuel : nat) (c : Chain) (tip block : Block) :
  lastBlock c = Some tip →
  put_block_fails (faults (state c)) = true →
  AddBlock E fuel block c = Ret (false, c).
Proof.
  intros Htip Hput. rewrite (AddBlock_window _ _ _ tip) by done.
  destruct (_ <? _); [done|]. step.
  destruct (bool_decide _); [done|].
  assert (∃ batch, addBlock E fuel block (Some GetBatch) c = Ret ((false, false, batch), c))
    as [batch Hrun]; [|by rewrite (bind_result _ _ _ _ _ Hrun)].
  unfold addBlock. step.
  destruct (GetBlockSizeLimit E (state c) block) as [limit|];
    [destruct (limit <? Size block); [by eexists|]|].
  all: step; rewrite Htip; step.
  all: destruct (DeepEqual (HeaderHash tip) (PrevHeaderHash block));
    [ destruct (block_applies E block (state c)) eqn:Happ;
      [ rewrite (bind_result _ _ _ _ _ (applyBlock_succeeds E block GetBatch c Happ));
        cbv beta iota; cbn [negb]; step
      | rewrite (bind_result _ _ _ _ _ (applyBlock_fails E block GetBatch c Happ));
        by eexists ]
    | step; cbn [negb]; step ].
  all: unfold PutBlock, write_or_fail; rewrite Hput; cbn [fst snd].
  all: rewrite set_state_id; by eexists.
Qed.

Lemma addBlock_tip_extension (fuel : nat) (c : Chain) (tip block : Block)
    (lastMeta newMeta : BlockMetaData) :
  lastBlock c = Some tip →
  size_rejects E block (state c) = false →
  PrevHeaderHash block = HeaderHash tip →
  block_applies E block (state c) = true →
  put_block_fails (faults (state c)) = false →
  GetBlockMetadata (HeaderHash tip) (state c) = Some lastMeta →
  GetBlockMetadata (HeaderHash block) (state c) = Some newMeta →
  uint256_of_bytes (TotalDifficulty lastMeta) < uint256_of_bytes (TotalDifficulty newMeta) →
  addBlock E fuel block (Some GetBatch) c
  = Ret ((true, false, Some (extension_batch E block (state c))),
         {| config := config c; triggerMiner := true; state := state c;
            txPool := filter (fun e => ¬ IsStale E (BlockNumber block) e)
                        (RemoveTxInBlock block (txPool c));
            lastBlock := Some block; currentDifficulty := currentDifficulty c |}).
Proof.
  intros Htip Hsize Hprev Happ Hput Hlast Hmeta Hlt.
  unfold addBlock. step. unfold size_rejects in Hsize. rewrite Hsize.
  step. rewrite Htip. step. rewrite Hprev, DeepEqual_refl.
  rewrite (bind_result _ _ _ _ _ (applyBlock_succeeds E block GetBatch c Happ)).
  cbv beta iota. cbn [negb]. step.
  unfold PutBlock, write_or_fail. rewrite Hput. cbn [fst snd write GetBatch app].
  rewrite set_state_id. step. rewrite Hlast. step. rewrite Hmeta. steps.
  destruct (Z.ltb_spec (uint256_of_bytes (TotalDifficulty lastMeta))
              (uint256_of_bytes (TotalDifficulty newMeta))); [|lia].
  cbn [negb]. unfold updateChainState, updateBlockNumberMapping. steps.
  by destruct c.
Qed.

Lemma AddBlock_extends_tip_run (fuel : nat) (c : Chain) (tip block : Block)
    (lastMeta newMeta : BlockMetaData) :
  lastBlock c = Some tip →
  window_rejects c tip block = false →
  GetBlock (HeaderHash block) (state c) = None →
  size_rejects E block (state c) = false →
  PrevHeaderHash block = HeaderHash tip →
  block_applies E block (state c) = true →
  put_block_fails (faults (state c)) = false →
  GetBlockMetadata (HeaderHash tip) (state c) = Some lastMeta →
  GetBlockMetadata (HeaderHash block) (state c) = Some newMeta →
  uint256_of_bytes (TotalDifficulty lastMeta) < uint256_of_bytes (TotalDifficulty newMeta) →
  AddBlock E fuel block c = Ret (true, extended E block c).
Proof.
  intros Htip Hwin Hnew Hsize Hprev Happ Hput Hlast Hmeta Hlt.
  rewrite (AddBlock_admitted _ _ tip) by done.
  rewrite (bind_result _ _ _ _ _
             (addBlock_tip_extension fuel c tip block lastMeta newMeta
                Htip Hsize Hprev Happ Hput Hlast Hmeta Hlt)).
  cbv beta iota. cbn [negb]. by steps.
Qed.

(** X4.  A new, admissible block that extends the tip, applies, and is
    heavier than the tip becomes the tip in a single commit: afterwards
    [Height] is its height, the stored chain height is its height, and the
    canonical block at that height is the block itself. *)
Theorem AddBlock_extends_tip (fuel : nat) (c : Chain) (tip block : Block)
    (lastMeta newMeta : BlockMetaData) :
  lastBlock c = Some tip →
  window_rejects c tip block = false →
  GetBlock (HeaderHash block) (state c) = None →
  size_rejects E block (state c) = false →
  PrevHeaderHash block = HeaderHash tip →
  block_applies E block (state c) = true →
  put_block_fails (faults (state c)) = false →
  GetBlockMetadata (HeaderHash tip) (state c) = Some lastMeta →
  GetBlockMetadata (HeaderHash block) (state c) = Some newMeta →
  uint256_of_bytes (TotalDifficulty lastMeta) < uint256_of_bytes (TotalDifficulty newMeta) →
  ∃ c', AddBlock E fuel block c = Ret (true, c')
        ∧ commits (state c') = commits (state c) ++ [extension_batch E block (state c)]
        ∧ lastBlock c' = Some block
        ∧ Height c' = Ret (BlockNumber block, c')
        ∧ GetChainHeight (state c') = Some (BlockNumber block)
        ∧ GetBlockByNumber (BlockNumber block) (state c') = Some block
        ∧ addresses (db (state c')) = applied_addresses E block (state c) ∪ addresses (db (state c))
        ∧ triggerMiner c' = true.
Proof.
  intros Htip Hwin Hnew Hsize Hprev Happ Hput Hlast Hmeta Hlt.
  exists (extended E block c). split; [by eapply AddBlock_extends_tip_run|].
  split_and!; try done.
  unfold GetBlockByNumber, GetBlockNumberMapping, GetBlock. cbn.
  rewrite lookup_insert_eq. cbn. by rewrite lookup_insert_eq.
Qed.

(** X5.  Submitting the same block again after it has become the tip is
    rejected as a duplicate and changes nothing. *)
Theorem AddBlock_twice (fuel fuel' : nat) (c : Chain) (tip block : Block)
    (lastMeta newMeta : BlockMetaData) :
  lastBlock c = Some tip →
  window_rejects c tip block = false →
  GetBlock (HeaderHash block) (state c) = None →
  size_rejects E block (state c) = false →
  PrevHeaderHash block = HeaderHash tip →
  block_applies E block (state c) = true →
  put_block_fails (faults (state c)) = false →
  GetBlockMetadata (HeaderHash tip) (state c) = Some lastMeta →
  GetBlockMetadata (HeaderHash block) (state c) = Some newMeta →
  uint256_of_bytes (TotalDifficulty lastMeta) < uint256_of_bytes (TotalDifficulty newMeta) →
  ∃ c', AddBlock E fuel block c = Ret (true, c')
        ∧ AddBlock E fuel' block c' = Ret (false, c').
Proof.
  intros Htip Hwin Hnew Hsize Hprev Happ Hput Hlast Hmeta Hlt.
  exists (extended E block c). split; [by eapply AddBlock_extends_tip_run|].
  rewrite (AddBlock_window _ _ _ block) by done.
  destruct (_ <? _); [done|]. step.
  rewrite bool_decide_eq_true_2; [done|].
  unfold GetBlock. cbn. rewrite lookup_insert_eq. eauto.
Qed.

(** X6.  A new, admissible block off the tip whose metadata is not in the
    store makes [AddBlock] panic: the cumulative difficulty is read off a
    nil metadata record. *)
Theorem AddBlock_without_metadata_panics (fuel : nat) (c : Chain) (tip block : Block) :
  lastBlock c = Some tip →
  window_rejects c tip block = false →
  GetBlock (HeaderHash block) (state c) = None →
  size_rejects E block (state c) = false →
  PrevHeaderHash block ≠ HeaderHash tip →
  put_block_fails (faults (state c)) = false →
  GetBlockMetadata (HeaderHash tip) (state c) = None
  ∨ GetBlockMetadata (HeaderHash block) (state c) = None →
  AddBlock E fuel block c = Panic.
Proof.
  intros Htip Hwin Hnew Hsize Hside Hput Hnone.
  rewrite (AddBlock_admitted _ _ tip) by done.
  apply bind_result_panic. unfold addBlock. step.
  unfold size_rejects in Hsize. rewrite Hsize.
  step. rewrite Htip. step. rewrite DeepEqual_ne by done.
  step. cbn [negb]. step.
  unfold PutBlock, write_or_fail. rewrite Hput. cbn [fst snd write GetBatch app].
  rewrite set_state_id. step. step.
  destruct (GetBlockMetadata (HeaderHash tip) (state c)); [|by step].
  step. destruct Hnone as [Hn | ->]; [done|]. by step.
Qed.

End AdmissionMore.

(** ** Further properties of fork handling *)

(** [GetForkPoint] on a block never panics and never changes the chain. *)
Lemma GetForkPoint_loop_reads (n : nat) (c : Chain) :
  ∀ (block : Block) (acc : list string),
    GetForkPoint_loop n (Some block) acc c = OutOfFuel
    ∨ ∃ r, GetForkPoint_loop n (Some block) acc c = Ret (r, c).
Proof.
  induction n as [|n IH]; intros block acc; [by left|].
  cbn [GetForkPoint_loop]. step.
  destruct (match GetBlockByNumber (BlockNumber block) (state c) with
            | Some m => DeepEqual (HeaderHash m) (HeaderHash block)
            | None => false
            end); [right; by eexists|].
  destruct (BlockNumber block =? 0); [right; by eexists|].
  step. destruct (GetBlock (PrevHeaderHash block) (state c)) as [p|]; [|right; by eexists].
  apply IH.
Qed.

Lemma PutForkState_keeps_blocks (fs : ForkState) (s : State) :
  blocks (db (PutForkState fs None s).2) = blocks (db s)
  ∧ number_mapping (db (PutForkState fs None s).2) = number_mapping (db s).
Proof. unfold PutForkState, write_or_fail. by destruct (put_fork_state_fails _). Qed.

Lemma AddChain_empty (E : Env) (forkState : ForkState) (c : Chain) :
  AddChain E [] forkState c = Ret (true, set_state (DeleteForkState (state c)) c).
Proof. reflexivity. Qed.

Section ForkMore.

Variable E : Env.

Lemma forkRecovery_fresh_canonical_tip_run (fuel : nat) (c c1 : Chain) (tip b m block : Block)
    (forkState : ForkState) (fp : string) (path : list string) (e : option error) :
  ForkPointHeaderhash forkState = ""%string →
  OldMainchainHashPath forkState = [] →
  lastBlock c = Some tip →
  GetBlock (HeaderHash tip) (state c) = Some b →
  GetBlockByNumber (BlockNumber b) (state c) = Some m →
  HeaderHash m = HeaderHash b →
  GetForkPoint fuel (Some block) c = Ret ((fp, path, e), c1) →
  forkRecovery E fuel block forkState c
  = Ret (true,
         set_triggerMiner true
           (set_state
              (DeleteForkState (PutForkState (discovered fp path forkState) None (state c)).2)
              c)).
Proof.
  intros Hfresh Hold Htip Hb Hm Heq Hfp.
  assert (c1 = c) as ->.
  { unfold GetForkPoint in Hfp.
    destruct (GetForkPoint_loop_reads fuel c block []) as [Hout | [r Hr]]; congruence. }
  destruct fuel as [|fuel]; [done|].
  rewrite (forkRecovery_fresh E _ _ _ _ _ _ _ _ Hfresh Hfp).
  set (fs := discovered fp path forkState).
  destruct (PutForkState_keeps_blocks fs (state c)) as [Hblocks Hmap].
  unfold forkRecovery_finish.
  replace (OldMainchainHashPath fs) with (@nil string) by done.
  cbn [length Nat.ltb Nat.leb]. step. cbn [negb].
  rewrite (bind_result _ _ _ (@nil string, fs)
             (set_state (PutForkState fs None (state c)).2 c)).
  2:{ assert (GetBlock (HeaderHash tip)
                 (state (set_state (PutForkState fs None (state c)).2 c)) = Some b) as Hb'.
      { unfold GetBlock in *. cbn. by rewrite Hblocks. }
      assert (GetBlockByNumber (BlockNumber b)
                (state (set_state (PutForkState fs None (state c)).2 c)) = Some m) as Hm'.
      { unfold GetBlockByNumber, GetBlockNumberMapping, GetBlock in *. cbn.
        by rewrite Hmap, Hblocks. }
      by rewrite (bind_result _ _ _ _ _
                    (Rollback_stops_at_canonical_tip E fuel "" (Some fs)
                       (set_state (PutForkState fs None (state c)).2 c) tip b m
                       Htip Hb' Hm' Heq)). }
  cbv beta iota. change (reverse []) with (@nil string).
  rewrite (bind_result _ _ _ _ _ (AddChain_empty E fs _)).
  cbn [negb]. steps. by destruct c.
Qed.

(** X7.  In the fresh state, when the tip is the canonical block at its
    height, [forkRecovery] reorganises nothing whatever [GetForkPoint]
    finds or fails to find: it persists the fork state with the discovery,
    deletes it again, sets the miner trigger and returns true; the tip,
    the chain height, the mapping and the address states are untouched. *)
Theorem forkRecovery_fresh_canonical_tip (fuel : nat) (c c1 : Chain) (tip b m block : Block)
    (forkState : ForkState) (r : string * list string * option error) :
  ForkPointHeaderhash forkState = ""%string →
  OldMainchainHashPath forkState = [] →
  lastBlock c = Some tip →
  GetBlock (HeaderHash tip) (state c) = Some b →
  GetBlockByNumber (BlockNumber b) (state c) = Some m →
  HeaderHash m = HeaderHash b →
  GetForkPoint fuel (Some block) c = Ret (r, c1) →
  ∃ c', forkRecovery E fuel block forkState c = Ret (true, c')
        ∧ lastBlock c' = Some tip
        ∧ triggerMiner c' = true
        ∧ blocks (db (state c')) = blocks (db (state c))
        ∧ chain_height (db (state c')) = chain_height (db (state c))
        ∧ number_mapping (db (state c')) = number_mapping (db (state c))
        ∧ addresses (db (state c')) = addresses (db (state c))
        ∧ fork_state (db (state c')) = None.
Proof.
  intros Hfresh Hold Htip Hb Hm Heq Hfp. destruct r as [[fp path] e].
  eexists. split; [by eapply forkRecovery_fresh_canonical_tip_run|].
  unfold PutForkState, write_or_fail.
  by destruct (put_fork_state_fails (faults (state c))).
Qed.

Lemma addBlock_off_tip_heavier (fuel : nat) (c : Chain) (tip block : Block)
    (lastMeta newMeta : BlockMetaData) :
  lastBlock c = Some tip →
  size_rejects E block (state c) = false →
  PrevHeaderHash block ≠ HeaderHash tip →
  put_block_fails (faults (state c)) = false →
  GetBlockMetadata (HeaderHash tip) (state c) = Some lastMeta →
  GetBlockMetadata (HeaderHash block) (state c) = Some newMeta →
  uint256_of_bytes (TotalDifficulty lastMeta) < uint256_of_bytes (TotalDifficulty newMeta) →
  addBlock E fuel block (Some GetBatch) c
  = if put_fork_state_fails (faults (state c))
    then Ret ((false, true, Some [WPutBlock block]), c)
    else match forkRecovery E fuel block (new_fork_state (HeaderHash block))
                 (fork_opened block c) with
         | Ret (ok, c') =>
             Ret ((ok, true,
                   Some [WPutBlock block; WPutForkState (new_fork_state (HeaderHash block))]),
                  c')
         | Panic => Panic
         | OutOfFuel => OutOfFuel
         end.
Proof.
  intros Htip Hsize Hside Hput Hlast Hmeta Hlt.
  unfold addBlock. step. unfold size_rejects in Hsize. rewrite Hsize.
  step. rewrite Htip. step. rewrite DeepEqual_ne by done.
  step. cbn [negb]. step.
  unfold PutBlock, write_or_fail. rewrite Hput. cbn [fst snd write GetBatch app].
  rewrite set_state_id. step. rewrite Hlast. step. rewrite Hmeta. steps.
  destruct (Z.ltb_spec (uint256_of_bytes (TotalDifficulty lastMeta))
              (uint256_of_bytes (TotalDifficulty newMeta))); [|lia].
  cbn [negb]. step.
  unfold PutForkState, write_or_fail.
  destruct (put_fork_state_fails (faults (state c))); cbn [fst snd write app].
  - by rewrite set_state_id.
  - rewrite set_state_id. step. unfold bind at 1. unfold fork_opened.
    by destruct (forkRecovery E fuel block _ _) as [[ok c']| |].
Qed.

(** X8.  A new, admissible, heavier block off the tip is rejected with
    nothing changed when the fork state cannot be written: the batch that
    holds the block body is never committed. *)
Theorem AddBlock_fork_state_failure_rejected (fuel : nat) (c : Chain) (tip block : Block)
    (lastMeta newMeta : BlockMetaData) :
  lastBlock c = Some tip →
  window_rejects c tip block = false →
  GetBlock (HeaderHash block) (state c) = None →
  size_rejects E block (state c) = false →
  PrevHeaderHash block ≠ HeaderHash tip →
  put_block_fails (faults (state c)) = false →
  put_fork_state_fails (faults (state c)) = true →
  GetBlockMetadata (HeaderHash tip) (state c) = Some lastMeta →
  GetBlockMetadata (HeaderHash block) (state c) = Some newMeta →
  uint256_of_bytes (TotalDifficulty lastMeta) < uint256_of_bytes (TotalDifficulty newMeta) →
  AddBlock E fuel block c = Ret (false, c).
Proof.
  intros Htip Hwin Hnew Hsize Hside Hput Hfs Hlast Hmeta Hlt.
  rewrite (AddBlock_admitted _ _ _ tip) by done.
  rewrite (bind_result _ _ c (false, true, Some [WPutBlock block]) c); [done|].
  rewrite (addBlock_off_tip_heavier fuel c tip block lastMeta newMeta) by done.
  by rewrite Hfs.
Qed.

(** For a new, admissible, heavier block off the tip, [AddBlock] commits
    the block body together with a new fork state naming the block as
    initiator, and its outcome is from there on the outcome of
    [forkRecovery]. *)
Lemma AddBlock_enters_fork_recovery_run (fuel : nat) (c : Chain) (tip block : Block)
    (lastMeta newMeta : BlockMetaData) :
  lastBlock c = Some tip →
  window_rejects c tip block = false →
  GetBlock (HeaderHash block) (state c) = None →
  size_rejects E block (state c) = false →
  PrevHeaderHash block ≠ HeaderHash tip →
  put_block_fails (faults (state c)) = false →
  put_fork_state_fails (faults (state c)) = false →
  GetBlockMetadata (HeaderHash tip) (state c) = Some lastMeta →
  GetBlockMetadata (HeaderHash block) (state c) = Some newMeta →
  uint256_of_bytes (TotalDifficulty lastMeta) < uint256_of_bytes (TotalDifficulty newMeta) →
  AddBlock E fuel block c
  = forkRecovery E fuel block (new_fork_state (HeaderHash block)) (fork_opened block c).
Proof.
  intros Htip Hwin Hnew Hsize Hside Hput Hfs Hlast Hmeta Hlt.
  rewrite (AddBlock_admitted _ _ _ tip) by done.
  unfold bind at 1.
  rewrite (addBlock_off_tip_heavier fuel c tip block lastMeta newMeta) by done.
  rewrite Hfs.
  destruct (forkRecovery E fuel block _ _) as [[[] c']| |]; done.
Qed.

(** X9.  With a tip that is stored and canonical at its height, a new,
    admissible, heavier block off the tip is accepted without any
    reorganisation, whether or not its branch leads back to the main
    chain: the body is stored, the tip, the chain height, the mapping and
    the address states stay, and no fork state is left behind. *)
Theorem AddBlock_heavier_fork_keeps_tip (fuel : nat) (c c1 : Chain) (tip b m block : Block)
    (lastMeta newMeta : BlockMetaData) (r : string * list string * option error) :
  lastBlock c = Some tip →
  window_rejects c tip block = false →
  GetBlock (HeaderHash block) (state c) = None →
  size_rejects E block (state c) = false →
  PrevHeaderHash block ≠ HeaderHash tip →
  put_block_fails (faults (state c)) = false →
  put_fork_state_fails (faults (state c)) = false →
  GetBlockMetadata (HeaderHash tip) (state c) = Some lastMeta →
  GetBlockMetadata (HeaderHash block) (state c) = Some newMeta →
  uint256_of_bytes (TotalDifficulty lastMeta) < uint256_of_bytes (TotalDifficulty newMeta) →
  GetBlock (HeaderHash tip) (state c) = Some b →
  GetBlockByNumber (BlockNumber b) (state c) = Some m →
  HeaderHash m = HeaderHash b →
  GetForkPoint fuel (Some block) (fork_opened block c) = Ret (r, c1) →
  ∃ c', AddBlock E fuel block c = Ret (true, c')
        ∧ lastBlock c' = Some tip
        ∧ GetBlock (HeaderHash block) (state c') = Some block
        ∧ chain_height (db (state c')) = chain_height (db (state c))
        ∧ number_mapping (db (state c')) = number_mapping (db (state c))
        ∧ addresses (db (state c')) = addresses (db (state c))
        ∧ fork_state (db (state c')) = None.
Proof.
  intros Htip Hwin Hnew Hsize Hside Hput Hfs Hlast Hmeta Hlt Hb Hm Heq Hfp.
  rewrite (AddBlock_enters_fork_recovery_run fuel c tip block lastMeta newMeta) by done.
  destruct r as [[fp path] e].
  assert (HeaderHash tip ≠ HeaderHash block) as Hne by (intros Hh; congruence).
  assert (GetBlock (HeaderHash tip) (state (fork_opened block c)) = Some b) as Hb'.
  { unfold GetBlock in *. cbn. by rewrite lookup_insert_ne. }
  assert (GetBlockByNumber (BlockNumber b) (state (fork_opened block c)) = Some m) as Hm'.
  { unfold GetBlockByNumber, GetBlockNumberMapping, GetBlock in *. cbn.
    destruct (number_mapping (db (state c)) !! BlockNumber b) as [bnm|]; [|done].
    rewrite lookup_insert_ne; [done|]. intros Hh. congruence. }
  rewrite (forkRecovery_fresh_canonical_tip_run fuel (fork_opened block c) c1 tip b m block
             (new_fork_state (HeaderHash block)) fp path e) by done.
  eexists. split; [done|].
  unfold PutForkState, write_or_fail. cbn [faults state fork_opened set_state commit].
  rewrite Hfs. cbn. split_and!; try done.
  unfold GetBlock. cbn. by rewrite lookup_insert_eq.
Qed.

End ForkMore.

(** ** Further properties of [Load] *)

Lemma add_recipients_total (txs : list Tx) (m : gmap string AddressState) :
  add_recipients txs m = Panic ∨ ∃ m', add_recipients txs m = Ret m'.
Proof.
  revert m. induction txs as [|tx txs IH]; intros m; cbn; [right; by eexists|].
  destruct (Body tx); [by left| |by left]. apply IH.
Qed.


Section LoadMore.

Variable E : Env.

Lemma Load_on_warm_store (fuel : nat) (genesisBlock : Block) (c : Chain) (h : Z) :
  GetChainHeight (state c) = Some h →
  Load E fuel genesisBlock c = Load_warm E fuel h c.
Proof. intros H. unfold Load. step. by rewrite H. Qed.

Lemma Load_warm_run (fuel : nat) (c : Chain) (h : Z) (tip : Block) (md : BlockMetaData) :
  GetBlockByNumber h (state c) = Some tip →
  GetBlockMetadata (HeaderHash tip) (state c) = Some md →
  GetForkState (state c) = None →
  Load_warm E fuel h c
  = Ret (None, set_currentDifficulty (BlockDifficulty md) (set_lastBlock (Some tip) c)).
Proof.
  intros Htip Hmd Hfs. unfold Load_warm. step. rewrite Htip. steps.
  cbn [state set_lastBlock]. rewrite Hmd. steps.
  cbn [state set_lastBlock set_currentDifficulty]. by rewrite Hfs.
Qed.

(** X10.  On a warm start with no fork state, [Load] ignores the genesis
    block it is given and writes nothing: the tip becomes the canonical
    block at the stored chain height and the current difficulty that
    block's difficulty. *)
Theorem Load_warm_start (fuel : nat) (genesisBlock : Block) (c : Chain) (h : Z)
    (tip : Block) (md : BlockMetaData) :
  GetChainHeight (state c) = Some h →
  GetBlockByNumber h (state c) = Some tip →
  GetBlockMetadata (HeaderHash tip) (state c) = Some md →
  GetForkState (state c) = None →
  ∃ c', Load E fuel genesisBlock c = Ret (None, c')
        ∧ state c' = state c
        ∧ lastBlock c' = Some tip
        ∧ currentDifficulty c' = BlockDifficulty md
        ∧ Height c' = Ret (BlockNumber tip, c').
Proof.
  intros Hh Htip Hmd Hfs.
  exists (set_currentDifficulty (BlockDifficulty md) (set_lastBlock (Some tip) c)).
  split; [|done].
  rewrite (Load_on_warm_store _ _ _ h) by done. by apply Load_warm_run.
Qed.

(** X11.  On a warm start whose chain height has no canonical block in the
    store (no mapping at that height, or no block under the mapped hash),
    [Load] panics: the nil tip is dereferenced. *)
Theorem Load_warm_missing_tip_panics (fuel : nat) (genesisBlock : Block) (c : Chain) (h : Z) :
  GetChainHeight (state c) = Some h →
  GetBlockByNumber h (state c) = None →
  Load E fuel genesisBlock c = Panic.
Proof.
  intros Hh Htip. rewrite (Load_on_warm_store _ _ _ h) by done.
  unfold Load_warm. step. rewrite Htip. by steps.
Qed.

(** X12.  On a warm start whose tip has no metadata in the store, [Load]
    returns an error, with the tip already assigned and nothing written. *)
Theorem Load_warm_missing_metadata (fuel : nat) (genesisBlock : Block) (c : Chain) (h : Z)
    (tip : Block) :
  GetChainHeight (state c) = Some h →
  GetBlockByNumber h (state c) = Some tip →
  GetBlockMetadata (HeaderHash tip) (state c) = None →
  Load E fuel genesisBlock c = Ret (Some ErrNotFound, set_lastBlock (Some tip) c).
Proof.
  intros Hh Htip Hmd. rewrite (Load_on_warm_store _ _ _ h) by done.
  unfold Load_warm. step. rewrite Htip. steps.
  cbn [state set_lastBlock]. by rewrite Hmd.
Qed.

(** X13.  A node restarted after a successful cold start finds its tip:
    with a genesis block of height 0, the second [Load] takes the warm
    path, makes the genesis block the tip at height 0 and sets the
    current difficulty to the genesis difficulty, writing nothing. *)
Theorem Load_restart_after_cold_start (fuel fuel' : nat) (genesisBlock genesisBlock' : Block)
    (c c' : Chain) :
  GetChainHeight (state c) = None →
  GetForkState (state c) = None →
  faults (state c) = no_faults →
  BlockNumber genesisBlock = 0 →
  Load E fuel genesisBlock c = Ret (None, c') →
  ∃ c'', Load E fuel' genesisBlock' c' = Ret (None, c'')
         ∧ state c'' = state c'
         ∧ lastBlock c'' = Some genesisBlock
         ∧ Height c'' = Ret (0, c'')
         ∧ currentDifficulty c''
           = DifficultyTrackerGet E (MiningSetpointBlocktime (config c))
               (StringToUInt256 E (GenesisDifficulty (config c))).
Proof.
  intros Hcold Hfs Hf H0 HLoad. rewrite Load_on_cold_store in HLoad by done.
  destruct (Load_cold_success E _ _ _ Hf HLoad) as [addrs ->].
  eexists. split.
  - rewrite (Load_on_warm_store _ _ _ 0) by done.
    apply (Load_warm_run _ _ _ genesisBlock
             (CreateBlockMetadata
                (DifficultyTrackerGet E (MiningSetpointBlocktime (config c))
                   (StringToUInt256 E (GenesisDifficulty (config c))))
                (DifficultyTrackerGet E (MiningSetpointBlocktime (config c))
                   (StringToUInt256 E (GenesisDifficulty (config c)))) [])).
    + unfold GetBlockByNumber, GetBlockNumberMapping, GetBlock. cbn. rewrite H0.
      rewrite lookup_insert_eq. cbn. by rewrite lookup_insert_eq.
    + unfold GetBlockMetadata. cbn. by rewrite lookup_insert_eq.
    + done.
  - split_and!; try done. unfold Height. steps. cbn. by rewrite H0.
Qed.


(** X15.  A cold start panics when the genesis description has no
    transaction at index 0, or one that is no coinbase. *)
Theorem Load_cold_without_coinbase_panics (fuel : nat) (genesisBlock : Block) (c : Chain) :
  GetChainHeight (state c) = None →
  match index (GenesisTransactions E) 0 with
  | Some tx => ∀ addr_to amount, Body tx ≠ CoinBaseBody addr_to amount
  | None => True
  end →
  Load E fuel genesisBlock c = Panic.
Proof.
  intros Hcold Hcb. rewrite Load_on_cold_store by done.
  unfold Load_cold. steps. rewrite bind_lift_result.
  destruct (add_recipients_total (drop 1 (GenesisTransactions E))
              (foldl (λ acc gb, <[gb.1:=SetBalance gb.2 (GetDefaultAddressState gb.1)]> acc)
                 ∅ (GenesisBalance E))) as [-> | [m ->]]; [done|].
  rewrite bind_deref. destruct (index (GenesisTransactions E) 0) as [tx|]; [|done].
  destruct (Body tx) as [a amt| |]; [by destruct (Hcb a amt)|done..].
Qed.

End LoadMore.

(** ** Further properties of rollback *)

Lemma bind_bind {A B C} (m : M A) (f : A → M B) (k : B → M C) c :
  bind (bind m f) k c = bind m (fun a => bind (f a) k) c.
Proof. unfold bind. by destruct (m c) as [[a c']| |]. Qed.

Lemma apply_ops_blocks (ops : list WriteOp) (d : DB) :
  forallb (fun op => negb (is_put_block op)) ops = true →
  blocks (apply_ops ops d) = blocks d.
Proof.
  revert d. induction ops as [|op ops IH]; intros d Hops; [done|].
  cbn in Hops. apply andb_true_iff in Hops as [Hop Hops].
  cbn. unfold apply_ops in IH. rewrite IH by done. by destruct op.
Qed.

Lemma descends_blocks (s s' : State) (b : Block) :
  blocks (db s') = blocks (db s) → descends s' b = descends s b.
Proof. intros H. unfold descends, GetBlock. by rewrite H. Qed.

Lemma parents_descend_blocks (s s' : State) :
  blocks (db s') = blocks (db s) → parents_descend s → parents_descend s'.
Proof.
  intros H Hall. unfold parents_descend. rewrite H.
  intros h b Hb. rewrite (descends_blocks s s') by done. by apply (Hall h).
Qed.

Section RollbackMore.

Variable E : Env.

Lemma revert_loop_total (fuel : nat) (txs : list Tx) (m : gmap string AddressState) :
  revert_loop E (S (S fuel)) txs (Z.of_nat (length txs) - 1) m ≠ OutOfFuel.
Proof.
  destruct (decide (2 ≤ length txs)%nat).
  - by rewrite revert_loop_skips.
  - by rewrite revert_loop_panics by lia.
Qed.

(** With a budget of two turns for its own loop,
    [RemoveBlockFromMainchain] panics or returns, and then it has put no
    block body into the batch and has left the stored blocks alone. *)
Lemma RemoveBlockFromMainchain_outcome (fuel : nat) (block : Block) (blockNumber : Z)
    (ops : Batch) (c : Chain) :
  RemoveBlockFromMainchain E (S (S fuel)) block blockNumber (Some ops) c = Panic
  ∨ ∃ ops' c',
      RemoveBlockFromMainchain E (S (S fuel)) block blockNumber (Some ops) c
      = Ret (Some (ops ++ ops'), c')
      ∧ forallb (fun op => negb (is_put_block op)) ops' = true
      ∧ blocks (db (state c')) = blocks (db (state c))
      ∧ faults (state c') = faults (state c).
Proof.
  unfold RemoveBlockFromMainchain. step. rewrite bind_lift_result.
  destruct (revert_loop E _ _ _ _) as [m| |] eqn:Hloop;
    [|by left|by apply revert_loop_total in Hloop].
  right. steps. unfold PutAddressesState, write_or_fail. cbn.
  destruct (put_addresses_fail (faults (state c))); cbn.
  - exists [WPutChainHeight (wrap64 (BlockNumber block - 1)); WRollbackTxMetadata block].
    eexists. rewrite <- !app_assoc. by split_and!.
  - exists [WPutChainHeight (wrap64 (BlockNumber block - 1)); WRollbackTxMetadata block;
            WPutAddressesState m].
    eexists. rewrite <- !app_assoc. by split_and!.
Qed.

Lemma Rollback_loop_terminates (fuel : nat) (forkedHeaderHash : string) :
  ∀ (n : nat) (c : Chain) (forkState : option ForkState) (hashPath : list string),
    parents_descend (state c) →
    tip_bounded n c →
    Rollback_loop E n (S (S fuel)) forkedHeaderHash forkState hashPath c ≠ OutOfFuel.
Proof.
  induction n as [|n IH]; intros c forkState hashPath Hall Hbound.
  { unfold tip_bounded in Hbound. destruct (lastBlock c); lia. }
  cbn [Rollback_loop]. step. unfold tip_bounded in Hbound.
  destruct (lastBlock c) as [tip|] eqn:Htip; [|by step]. step.
  destruct Hbound as (Hdesc & Hpos & Hn).
  destruct (DeepEqual (HeaderHash tip) forkedHeaderHash); [done|].
  step. destruct (GetBlock (HeaderHash tip) (state c)) as [b|]; [|by step].
  step. step. destruct (GetBlockByNumber (BlockNumber b) (state c)) as [m|]; [|by step].
  step. destruct (DeepEqual (HeaderHash b) (HeaderHash m)); [done|].
  destruct (RemoveBlockFromMainchain_outcome fuel tip (BlockNumber b) GetBatch c)
    as [Hp | (ops' & c' & Hrun & Hops & Hblocks & Hfaults)].
  { by rewrite (bind_result_panic _ _ _ Hp). }
  rewrite (bind_result _ _ _ _ _ Hrun). cbv beta iota. cbn [GetBatch app].
  assert (∀ batch c2,
            forallb (fun op => negb (is_put_block op)) batch = true →
            blocks (db (state c2)) = blocks (db (state c)) →
            ∀ fs,
              Rollback_loop E n (S (S fuel)) forkedHeaderHash fs
                (hashPath ++ [HeaderHash tip])
                (set_lastBlock
                   (GetBlock (PrevHeaderHash tip) (WriteBatch batch (state c2)))
                   (set_state (WriteBatch batch (state c2)) c2)) ≠ OutOfFuel) as Hnext.
  { intros batch c2 Hbatch Hc2 fs. apply IH.
    - apply (parents_descend_blocks (state c)); [|done].
      cbn. by rewrite apply_ops_blocks.
    - unfold tip_bounded. cbn [lastBlock set_lastBlock state set_state].
      assert (blocks (db (WriteBatch batch (state c2))) = blocks (db (state c))) as Hb.
      { cbn. by rewrite apply_ops_blocks. }
      unfold GetBlock at 1. rewrite Hb.
      destruct (blocks (db (state c)) !! PrevHeaderHash tip) as [p|] eqn:Hp; [|lia].
      unfold descends, GetBlock in Hdesc. rewrite Hp in Hdesc.
      apply andb_true_iff in Hdesc as [Hp0%Z.leb_le Hp1%Z.ltb_lt].
      split_and!; [|done|lia].
      rewrite (descends_blocks (state c)) by done. by apply (Hall _ _ Hp). }
  destruct forkState as [fs|].
  - rewrite bind_bind. step. unfold PutForkState, write_or_fail.
    destruct (put_fork_state_fails (faults (state c'))); cbn [fst snd write].
    + steps. rewrite set_state_id. by apply Hnext.
    + steps. rewrite set_state_id. apply Hnext; [|done].
      rewrite forallb_app, Hops. done.
  - steps. by apply Hnext.
Qed.

(** X16.  When parent links lead to lower heights, [Rollback] does not
    run for ever: with a budget of two more turns than the height of the
    tip it returns or panics, for every fork point and fork state. *)
Theorem Rollback_terminates (fuel : nat) (forkedHeaderHash : string)
    (forkState : option ForkState) (c : Chain) (tip : Block) :
  lastBlock c = Some tip →
  parents_descend (state c) →
  descends (state c) tip = true →
  0 ≤ BlockNumber tip →
  (Z.to_nat (BlockNumber tip) + 2 ≤ fuel)%nat →
  Rollback E fuel forkedHeaderHash forkState c ≠ OutOfFuel.
Proof.
  intros Htip Hall Hdesc Hpos Hfuel. unfold Rollback.
  destruct fuel as [|[|fuel]]; [lia..|].
  apply Rollback_loop_terminates; [done|].
  unfold tip_bounded. by rewrite Htip.
Qed.

(** X17.  [RemoveBlockFromMainchain] panics on every block with at most
    one transaction: its loop starts at index [len - 1 <= 0] and runs on
    to index -1. *)
Theorem RemoveBlockFromMainchain_short_block_panics (fuel : nat) (block : Block)
    (blockNumber : Z) (batch : option Batch) (c : Chain) :
  (2 ≤ fuel)%nat →
  (length (Transactions block) ≤ 1)%nat →
  RemoveBlockFromMainchain E fuel block blockNumber batch c = Panic.
Proof.
  intros Hfuel Hlen. destruct fuel as [|[|fuel]]; [lia..|].
  unfold RemoveBlockFromMainchain.
  step. by rewrite bind_lift_result, revert_loop_panics.
Qed.

(** X18.  [RemoveBlockFromMainchain] deletes the mapping at the block's
    height in the store at once, in a commit of its own, while the new
    chain height and the address states only go into the caller's batch:
    when it returns the mapping is gone and the stored chain height is
    still the old one. *)
Theorem RemoveBlockFromMainchain_unmaps_at_once (fuel : nat) (block : Block)
    (blockNumber : Z) (c : Chain) :
  (2 ≤ length (Transactions block))%nat →
  put_addresses_fail (faults (state c)) = false →
  ∃ batch c',
    RemoveBlockFromMainchain E fuel block blockNumber (Some GetBatch) c = Ret (Some batch, c')
    ∧ commits (state c')
      = commits (state c) ++ [[WRemoveBlockNumberMapping (BlockNumber block)]]
    ∧ GetBlockNumberMapping (BlockNumber block) (state c') = None
    ∧ GetChainHeight (state c') = GetChainHeight (state c)
    ∧ addresses (db (state c')) = addresses (db (state c))
    ∧ existsb is_put_chain_height batch = true
    ∧ txPool c' = AddTxFromBlock block blockNumber (txPool c).
Proof.
  intros Hlen Hf. eexists _, _.
  split; [by apply RemoveBlockFromMainchain_reverts_nothing|].
  split_and!; try done.
  unfold GetBlockNumberMapping. cbn. by rewrite lookup_delete_eq.
Qed.

End RollbackMore.

(** ** Further properties of [AddChain] and [GetForkPoint] *)

Lemma after_first_last (h : string) (pre : list string) :
  h ∉ pre → after_first h (pre ++ [h]) = Some [].
Proof.
  induction pre as [|x pre IH]; intros Hnot; cbn.
  - by rewrite DeepEqual_refl.
  - apply not_elem_of_cons in Hnot as [Hne Hnot].
    rewrite DeepEqual_ne by done. by apply IH.
Qed.

Section AddChainMore.

Variable E : Env.

Lemma AddChain_run (hashPath : list string) (forkState : ForkState)
    (c : Chain) (tip : Block) (path : list Block) :
  lastBlock c = Some tip →
  Forall2 (λ h b, GetBlock h (state c) = Some b)
          (skip_past_tip (HeaderHash tip) hashPath) path →
  AddChain E hashPath forkState c
  = Ret (if (apply_path E path c).1
         then (true, set_state (DeleteForkState (state (apply_path E path c).2))
                       (apply_path E path c).2)
         else (false, (apply_path E path c).2)).
Proof.
  intros Htip Hpath.
  destruct (AddChain_start_drop c tip Htip hashPath []) as (start & Hstart & Hdrop).
  unfold AddChain. rewrite (bind_result _ _ _ _ _ Hstart). cbv beta. cbn in Hdrop.
  fold (skip_past_tip (HeaderHash tip) hashPath) in Hdrop. rewrite Hdrop.
  pose proof (AddChain_loop_apply_path E _ path c Hpath) as Hloop.
  destruct (apply_path E path c) as [ok c'].
  rewrite (bind_result _ _ _ _ _ Hloop). by destruct ok.
Qed.

Lemma apply_path_blocks (path : list Block) :
  ∀ c, blocks (db (state (apply_path E path c).2)) = blocks (db (state c)).
Proof.
  induction path as [|block path IH]; intros c; cbn; [done|].
  destruct (block_applies E block (state c)); [|done]. by rewrite IH.
Qed.

Lemma apply_path_last (path : list Block) (tip' : Block) :
  ∀ c, (apply_path E path c).1 = true →
       last path = Some tip' →
       lastBlock (apply_path E path c).2 = Some tip'
       ∧ chain_height (db (state (apply_path E path c).2)) = Some (BlockNumber tip')
       ∧ number_mapping (db (state (apply_path E path c).2)) !! BlockNumber tip'
         = Some {| Headerhash := HeaderHash tip'; PrevHeaderhash := PrevHeaderHash tip' |}.
Proof.
  induction path as [|block path IH]; intros c Hok Hlast; [done|].
  cbn [apply_path] in *. destruct (block_applies E block (state c)); [|done].
  destruct path as [|next path].
  - injection Hlast as <-. cbn. by rewrite lookup_insert_eq.
  - apply IH; [done|]. by rewrite last_cons_cons in Hlast.
Qed.

(** X19.  When every block of the rest of the path applies, [AddChain]
    leaves the last block of the path as the tip, canonical at its height:
    the stored chain height is its height, the canonical block at that
    height is that block, and the fork state is gone. *)
Theorem AddChain_success_tip_canonical (hashPath : list string) (forkState : ForkState)
    (c : Chain) (tip tip' : Block) (path : list Block) :
  lastBlock c = Some tip →
  Forall2 (λ h b, GetBlock h (state c) = Some b)
          (skip_past_tip (HeaderHash tip) hashPath) path →
  (apply_path E path c).1 = true →
  last path = Some tip' →
  GetBlock (HeaderHash tip') (state c) = Some tip' →
  ∃ c', AddChain E hashPath forkState c = Ret (true, c')
        ∧ lastBlock c' = Some tip'
        ∧ Height c' = Ret (BlockNumber tip', c')
        ∧ GetChainHeight (state c') = Some (BlockNumber tip')
        ∧ GetBlockByNumber (BlockNumber tip') (state c') = Some tip'
        ∧ GetForkState (state c') = None.
Proof.
  intros Htip Hpath Hok Hlast Hstored.
  rewrite (AddChain_run _ _ _ tip path) by done. rewrite Hok.
  destruct (apply_path_last path tip' c Hok Hlast) as (Ht & Hh & Hm).
  pose proof (apply_path_blocks path c) as Hb.
  eexists. split; [done|].
  unfold Height, GetChainHeight, GetBlockByNumber, GetBlockNumberMapping, GetBlock,
    GetForkState in *.
  cbn. rewrite Hm, Hb, Hh. split_and!; try done.
  steps. cbn. by rewrite Ht.
Qed.

Lemma AddChain_loop_missing (hashes : list string) (path : list Block)
    (h : string) (rest : list string) :
  ∀ c, Forall2 (λ x b, GetBlock x (state c) = Some b) hashes path →
       (apply_path E path c).1 = true →
       GetBlock h (state c) = None →
       AddChain_loop E (hashes ++ h :: rest) c = Panic.
Proof.
  revert path. induction hashes as [|x hashes IH]; intros path c Hall Hok Hnone.
  - cbn [app AddChain_loop]. step. rewrite Hnone. by step.
  - inversion Hall as [|? block ? path' Hx Hrest]; subst.
    cbn [app AddChain_loop apply_path] in *. step. rewrite Hx. step.
    destruct (block_applies E block (state c)) eqn:Happ; [|done].
    rewrite (bind_result _ _ _ _ _ (applyBlock_succeeds E block GetBatch c Happ)).
    cbv beta iota. cbn [negb]. unfold updateChainState, updateBlockNumberMapping.
    steps. rewrite <- (IH path' (applied_block E block c)); [by destruct c| |done|done].
    eapply Forall2_impl; [exact Hrest|]. done.
Qed.

(** X20.  When the rest of the path names a hash with no block in the
    store and every block before it applies, [AddChain] panics on the nil
    block, after the blocks before it have been committed. *)
Theorem AddChain_missing_block_panics (hashPath : list string) (forkState : ForkState)
    (c : Chain) (tip : Block) (hashes : list string) (path : list Block)
    (h : string) (rest : list string) :
  lastBlock c = Some tip →
  skip_past_tip (HeaderHash tip) hashPath = hashes ++ h :: rest →
  Forall2 (λ x b, GetBlock x (state c) = Some b) hashes path →
  (apply_path E path c).1 = true →
  GetBlock h (state c) = None →
  AddChain E hashPath forkState c = Panic.
Proof.
  intros Htip Hskip Hall Hok Hnone.
  destruct (AddChain_start_drop c tip Htip hashPath []) as (start & Hstart & Hdrop).
  unfold AddChain. rewrite (bind_result _ _ _ _ _ Hstart). cbv beta. cbn in Hdrop.
  fold (skip_past_tip (HeaderHash tip) hashPath) in Hdrop. rewrite Hdrop, Hskip.
  apply bind_result_panic. by eapply AddChain_loop_missing.
Qed.

(** X21.  When the tip is the last entry of the path (and no earlier
    one), nothing is left to apply: [AddChain] only deletes the fork state
    and returns true. *)
Theorem AddChain_already_at_end (pre : list string) (forkState : ForkState)
    (c : Chain) (tip : Block) :
  lastBlock c = Some tip →
  HeaderHash tip ∉ pre →
  AddChain E (pre ++ [HeaderHash tip]) forkState c
  = Ret (true, set_state (DeleteForkState (state c)) c).
Proof.
  intros Htip Hnot. rewrite (AddChain_run _ _ _ tip []); [done|done|].
  unfold skip_past_tip. rewrite after_first_last by done. constructor.
Qed.

End AddChainMore.

(** X22.  [GetForkPoint] on a block only reads: it never panics, and when
    it returns the chain and the store are those it started from. *)
Theorem GetForkPoint_only_reads (fuel : nat) (c : Chain) (block : Block) :
  GetForkPoint fuel (Some block) c = OutOfFuel
  ∨ ∃ r, GetForkPoint fuel (Some block) c = Ret (r, c).
Proof. apply GetForkPoint_loop_reads. Qed.

Lemma fork_walk_height (s : State) (block : Block)
    (r : string * list string * option error) :
  heights_step_by_one s →
  fork_walk s block r →
  steps_by_one s block = true →
  ∀ fp path, r = (fp, path, None) →
    ∃ a, canonical s a ∧ HeaderHash a = fp
         ∧ BlockNumber a + Z.of_nat (length path) = BlockNumber block.
Proof.
  intros Hall Hwalk.
  induction Hwalk as [b Hcan|b|b|b p fp' path' Hnot H0 Hp Hwalk IH|b p fp' path' e' Hnot H0 Hp Hwalk IH];
    intros Hstep fq pth Heq; try done.
  - injection Heq as <- <-. exists b. split_and!; [done..|]. cbn. lia.
  - injection Heq as <- <-.
    destruct (IH (Hall _ _ Hp) fp' path' eq_refl) as (a & Hcan & Hfp & Hlen).
    exists a. split_and!; [done..|].
    unfold steps_by_one in Hstep. rewrite Hp in Hstep. apply Z.eqb_eq in Hstep.
    cbn [length]. lia.
Qed.

(** X23.  When heights go up by one along parent links, the path that
    [GetForkPoint] returns is as long as the fork is deep: the fork point
    is a canonical block, and its height plus the length of the path is
    the height of the block the walk started from. *)
Theorem GetForkPoint_path_length (fuel : nat) (c c' : Chain) (block : Block)
    (fp : string) (path : list string) :
  heights_step_by_one (state c) →
  steps_by_one (state c) block = true →
  GetForkPoint fuel (Some block) c = Ret ((fp, path, None), c') →
  ∃ a, canonical (state c) a ∧ HeaderHash a = fp
       ∧ BlockNumber a + Z.of_nat (length path) = BlockNumber block.
Proof.
  intros Hall Hstep Hrun. unfold GetForkPoint in Hrun.
  destruct (GetForkPoint_loop_sound _ _ _ _ _ _ Hrun) as (-> & [[fp' path'] e] & Hr & Hwalk).
  destruct e as [e|]; [done|]. cbn in Hr. injection Hr as -> ->.
  by eapply fork_walk_height.
Qed.

(** ** Properties of the wall-clock helper *)

Lemma wrap64_wrap64_add (a b : Z) : wrap64 (wrap64 a + wrap64 b) = wrap64 (a + b).
Proof. unfold wrap64. by rewrite <- Zplus_mod. Qed.

Lemma wrap64_wrap64_sub (a b : Z) : wrap64 (wrap64 a - wrap64 b) = wrap64 (a - b).
Proof. unfold wrap64. by rewrite <- Zminus_mod. Qed.

Section NtpClock.

Variable query : Z → string → Ntp.Reply.

Lemma ask_fails (retry : Z) (servers : list string) :
  (∀ s, s ∈ servers → Ntp.failed (query retry s) = true) →
  ∀ err, ∃ err', Ntp.ask query retry servers err = inr err'.
Proof.
  induction servers as [|s servers IH]; intros Hall err; cbn; [by eexists|].
  pose proof (Hall s (list_elem_of_here _ _)) as Hs.
  destruct (query retry s); [done|].
  apply IH. intros s' Hs'. apply Hall. by apply list_elem_of_further.
Qed.

Lemma ask_answer (retry : Z) (pre : list string) (s : string) (post : list string) (t : Z) :
  (∀ s', s' ∈ pre → Ntp.failed (query retry s') = true) →
  query retry s = Ntp.Answer t →
  ∀ err, Ntp.ask query retry (pre ++ s :: post) err = inl t.
Proof.
  induction pre as [|x pre IH]; intros Hpre Hs err; cbn.
  - by rewrite Hs.
  - pose proof (Hpre x (list_elem_of_here _ _)) as Hx.
    destruct (query retry x); [done|].
    apply IH; [|done]. intros s' Hs'. apply Hpre. by apply list_elem_of_further.
Qed.


Lemma rounds_fail (retries more : list Z) (servers : list string) :
  (∀ r s, r ∈ retries → s ∈ servers → Ntp.failed (query r s) = true) →
  ∀ err, ∃ err', Ntp.rounds query (retries ++ more) servers err
                 = Ntp.rounds query more servers err'.
Proof.
  induction retries as [|r retries IH]; intros Hall err; cbn; [by eexists|].
  destruct (ask_fails r servers (λ s Hs, Hall r s (list_elem_of_here _ _) Hs) err)
    as [err' ->].
  apply IH. intros r' s Hr' Hs. apply Hall; [|done]. by apply list_elem_of_further.
Qed.


Lemma rounds_split (r R : Z) :
  0 ≤ r ≤ R → seqZ 0 (R + 1) = seqZ 0 r ++ r :: seqZ (r + 1) (R - r).
Proof.
  intros Hr. replace (R + 1) with (r + (1 + (R - r))) by lia.
  rewrite seqZ_app by lia. f_equal.
  rewrite seqZ_cons by lia. f_equal. f_equal; lia.
Qed.

Lemma UpdateTime_first_answer_run (now : Z) (n : Ntp.NTP) (r : Z)
    (pre : list string) (s : string) (post : list string) (t : Z) :
  Ntp.lock n = true →
  0 ≤ r ≤ Ntp.Retries (Ntp.settings n) →
  Ntp.Servers (Ntp.settings n) = pre ++ s :: post →
  (∀ r' s', 0 ≤ r' < r → s' ∈ Ntp.Servers (Ntp.settings n) →
            Ntp.failed (query r' s') = true) →
  (∀ s', s' ∈ pre → Ntp.failed (query r s') = true) →
  query r s = Ntp.Answer t →
  Ntp.UpdateTime query now n
  = Ret (None, Ntp.locked (Ntp.settings n) (wrap64 (now - t)) (wrap64 t)).
Proof.
  intros Hlock Hr Hservers Hearlier Hpre Hs. unfold Ntp.UpdateTime. rewrite Hlock.
  rewrite (rounds_split r) by done.
  destruct (rounds_fail (seqZ 0 r) (r :: seqZ (r + 1) (Ntp.Retries (Ntp.settings n) - r))
              (Ntp.Servers (Ntp.settings n))) with (err := @None string) as [err' ->].
  { intros r' s' Hr' Hs'. apply elem_of_seqZ in Hr'. apply Hearlier; [lia|done]. }
  cbn [Ntp.rounds]. rewrite Hservers, (ask_answer r pre s post t) by done.
  done.
Qed.

(** X24.  [UpdateTime] takes the first answer: when every query before it
    fails, in the earlier rounds and to the earlier servers of its round,
    the answer of that server sets the drift to the local second minus the
    server's second, as an unsigned 64-bit number, and the last update to
    the server's second, and no error is returned. *)
Theorem UpdateTime_first_answer (now : Z) (n : Ntp.NTP) (r : Z)
    (pre : list string) (s : string) (post : list string) (t : Z) :
  Ntp.lock n = true →
  0 ≤ r ≤ Ntp.Retries (Ntp.settings n) →
  Ntp.Servers (Ntp.settings n) = pre ++ s :: post →
  (∀ r' s', 0 ≤ r' < r → s' ∈ Ntp.Servers (Ntp.settings n) →
            Ntp.failed (query r' s') = true) →
  (∀ s', s' ∈ pre → Ntp.failed (query r s') = true) →
  query r s = Ntp.Answer t →
  ∃ n', Ntp.UpdateTime query now n = Ret (None, n')
        ∧ Ntp.drift n' = wrap64 (now - t)
        ∧ Ntp.lastUpdate n' = wrap64 t
        ∧ Ntp.settings n' = Ntp.settings n.
Proof.
  intros Hlock Hr Hservers Hearlier Hpre Hs.
  exists (Ntp.locked (Ntp.settings n) (wrap64 (now - t)) (wrap64 t)).
  split; [|done]. by eapply UpdateTime_first_answer_run.
Qed.



(** X27.  The instance [GetNTP] builds has no mutex: [UpdateTime] on it
    panics, and [Time] on it panics as soon as the local second is above
    the refresh interval and returns the bare local second otherwise. *)
Theorem Time_on_GetNTP (cfg : Ntp.Settings) (now1 now_update now2 : Z) :
  0 ≤ now1 < 2 ^ 64 →
  0 ≤ now2 < 2 ^ 64 →
  Ntp.UpdateTime query now_update (Ntp.GetNTP cfg) = Panic
  ∧ Ntp.Time query now1 now_update now2 (Ntp.GetNTP cfg)
    = if Ntp.Refresh cfg <? now1 then Panic else Ret (now2, Ntp.GetNTP cfg).
Proof.
  intros H1 H2. split; [done|]. unfold Ntp.Time.
  cbn [Ntp.drift Ntp.lastUpdate Ntp.settings Ntp.GetNTP Ntp.UpdateTime Ntp.lock].
  rewrite !Z.add_0_r, Z.sub_0_r.
  rewrite !(wrap64_small now1), !(wrap64_small now2) by lia.
  by destruct (_ <? _).
Qed.

(** X28.  After [UpdateTime] has taken an answer [t] at the local second
    [now], a [Time] that needs no refresh returns the local second plus
    the local-minus-server difference [now - t], modulo 2^64. *)
Theorem Time_after_UpdateTime (now now1 now_update now2 : Z) (n : Ntp.NTP)
    (s : string) (post : list string) (t : Z) :
  Ntp.lock n = true →
  0 ≤ Ntp.Retries (Ntp.settings n) →
  Ntp.Servers (Ntp.settings n) = s :: post →
  query 0 s = Ntp.Answer t →
  (Ntp.Refresh (Ntp.settings n) <? wrap64 (now1 + (now - t) - t)) = false →
  ∃ n', Ntp.UpdateTime query now n = Ret (None, n')
        ∧ Ntp.Time query now1 now_update now2 n' = Ret (wrap64 (now2 + (now - t)), n').
Proof.
  intros Hlock HR Hservers Hs Hfresh.
  exists (Ntp.locked (Ntp.settings n) (wrap64 (now - t)) (wrap64 t)). split.
  - apply (UpdateTime_first_answer_run now n 0 [] s post t);
      [done | lia | done | intros; lia | intros s' Hs'; by apply elem_of_nil in Hs' | done].
  - unfold Ntp.Time. cbn [Ntp.drift Ntp.lastUpdate Ntp.settings Ntp.locked].
    rewrite !wrap64_wrap64_add, wrap64_wrap64_sub, Hfresh. done.
Qed.

End NtpClock.

(** ** The further properties on the sample data *)

Ltac evaluate :=
  first [ reflexivity | lia | discriminate | (cbn; lia)
        | vm_compute; first [reflexivity | discriminate | lia | exact I] ].

(** [B1'] is already stored. *)
Lemma AddBlock_duplicate_rejected_witness :
  AddBlock Sample.env 10 Sample.B1' (Sample.chain1 0) = Ret (false, Sample.chain1 0).
Proof.
  apply (AddBlock_duplicate_rejected Sample.env 10 (Sample.chain1 0) Sample.B1 Sample.B1'
           Sample.B1'); reflexivity.
Defined.

(** [Big] has size 2000, the limit is 1000. *)
Lemma AddBlock_oversize_rejected_witness :
  AddBlock Sample.env 10 Sample2.Big (Sample.chain1 0) = Ret (false, Sample.chain1 0).
Proof.
  apply (AddBlock_oversize_rejected Sample.env 10 (Sample.chain1 0) Sample.B1 Sample2.Big
           1000); [reflexivity | reflexivity | evaluate].
Defined.

Lemma AddBlock_put_failure_rejected_witness :
  AddBlock Sample.env 10 Sample2.B3 (Sample2.chain_faulty Sample2.block_write_fails)
  = Ret (false, Sample2.chain_faulty Sample2.block_write_fails).
Proof.
  apply (AddBlock_put_failure_rejected Sample.env 10 _ Sample.B1 Sample2.B3); reflexivity.
Defined.

(** [B3] extends [B1] on [chain2] and is heavier. *)
Lemma AddBlock_extends_tip_witness :
  ∃ c', AddBlock Sample.env 10 Sample2.B3 Sample2.chain2 = Ret (true, c')
        ∧ lastBlock c' = Some Sample2.B3
        ∧ GetBlockByNumber 2 (state c') = Some Sample2.B3.
Proof.
  destruct (AddBlock_extends_tip Sample.env 10 Sample2.chain2 Sample.B1 Sample2.B3
              (Sample.meta x03) (Sample.meta x05))
    as (c' & Hrun & _ & Htip & _ & _ & Hcan & _); try evaluate.
  exists c'. by split_and!.
Defined.

Lemma AddBlock_twice_witness :
  ∃ c', AddBlock Sample.env 10 Sample2.B3 Sample2.chain2 = Ret (true, c')
        ∧ AddBlock Sample.env 3 Sample2.B3 c' = Ret (false, c').
Proof.
  apply (AddBlock_twice Sample.env 10 3 Sample2.chain2 Sample.B1 Sample2.B3
           (Sample.meta x03) (Sample.meta x05)); evaluate.
Defined.

(** [S2] is off the tip and has no metadata in the store. *)
Lemma AddBlock_without_metadata_panics_witness :
  AddBlock Sample.env 10 Sample2.S2 (Sample.chain1 0) = Panic.
Proof.
  apply (AddBlock_without_metadata_panics Sample.env 10 (Sample.chain1 0) Sample.B1
           Sample2.S2); try evaluate.
  right. reflexivity.
Defined.

Lemma GetForkPoint_sample :
  GetForkPoint 10 (Some Sample.B2') (Sample.chain1 0) = Ret (Sample2.found, Sample.chain1 0).
Proof. vm_compute. reflexivity. Qed.

Lemma GetForkPoint_sample_opened :
  GetForkPoint 10 (Some Sample.B2') (fork_opened Sample.B2' (Sample.chain1 0))
  = Ret (Sample2.found, fork_opened Sample.B2' (Sample.chain1 0)).
Proof. vm_compute. reflexivity. Qed.

Lemma forkRecovery_fresh_canonical_tip_witness :
  ∃ c', forkRecovery Sample.env 10 Sample.B2' Sample.fresh (Sample.chain1 0) = Ret (true, c')
        ∧ lastBlock c' = Some Sample.B1
        ∧ fork_state (db (state c')) = None.
Proof.
  destruct (forkRecovery_fresh_canonical_tip Sample.env 10 (Sample.chain1 0) (Sample.chain1 0)
              Sample.B1 Sample.B1 Sample.B1 Sample.B2' Sample.fresh Sample2.found)
    as (c' & Hrun & Htip & _ & _ & _ & _ & _ & Hfs);
    try reflexivity; try apply GetForkPoint_sample.
  exists c'. by split_and!.
Defined.

Lemma AddBlock_fork_state_failure_rejected_witness :
  AddBlock Sample.env 10 Sample.B2' (Sample2.chain_faulty Sample2.fork_state_write_fails)
  = Ret (false, Sample2.chain_faulty Sample2.fork_state_write_fails).
Proof.
  apply (AddBlock_fork_state_failure_rejected Sample.env 10 _ Sample.B1 Sample.B2'
           (Sample.meta x03) (Sample.meta x04)); evaluate.
Defined.

(** The heavier [B2'] on the branch of [B1'] does not move the tip. *)
Lemma AddBlock_heavier_fork_keeps_tip_witness :
  ∃ c', AddBlock Sample.env 10 Sample.B2' (Sample.chain1 0) = Ret (true, c')
        ∧ lastBlock c' = Some Sample.B1
        ∧ GetBlock "B2'" (state c') = Some Sample.B2'
        ∧ fork_state (db (state c')) = None.
Proof.
  destruct (AddBlock_heavier_fork_keeps_tip Sample.env 10 (Sample.chain1 0)
              (fork_opened Sample.B2' (Sample.chain1 0))
              Sample.B1 Sample.B1 Sample.B1 Sample.B2'
              (Sample.meta x03) (Sample.meta x04) Sample2.found)
    as (c' & Hrun & Htip & Hblock & _ & _ & _ & Hfs);
    try evaluate; try apply GetForkPoint_sample_opened.
  exists c'. by split_and!.
Defined.

Lemma Load_warm_start_witness :
  ∃ c', Load Sample.env 10 Sample.G Sample2.restarted = Ret (None, c')
        ∧ lastBlock c' = Some Sample.B1
        ∧ currentDifficulty c' = [x01].
Proof.
  destruct (Load_warm_start Sample.env 10 Sample.G Sample2.restarted 1 Sample.B1
              (Sample.meta x03)) as (c' & Hrun & _ & Htip & Hd & _); try reflexivity.
  exists c'. by split_and!.
Defined.

Lemma Load_warm_missing_tip_panics_witness :
  Load Sample.env 10 Sample.G Sample2.unmapped = Panic.
Proof.
  apply (Load_warm_missing_tip_panics Sample.env 10 Sample.G Sample2.unmapped 5);
    reflexivity.
Defined.

Lemma Load_warm_missing_metadata_witness :
  Load Sample.env 10 Sample.G Sample2.no_metadata
  = Ret (Some ErrNotFound, set_lastBlock (Some Sample.B1) Sample2.no_metadata).
Proof.
  apply (Load_warm_missing_metadata Sample.env 10 Sample.G Sample2.no_metadata 1 Sample.B1);
    reflexivity.
Defined.

Lemma Load_restart_after_cold_start_witness :
  ∃ c'', Load Sample.env 7 Sample.G Sample.after_cold = Ret (None, c'')
         ∧ lastBlock c'' = Some Sample.G
         ∧ Height c'' = Ret (0, c'').
Proof.
  destruct (Load_restart_after_cold_start Sample.env 10 7 Sample.G Sample.G
              Sample.cold Sample.after_cold) as (c'' & Hrun & _ & Htip & HH & _);
    try reflexivity; try apply Load_sample_cold_start.
  exists c''. by split_and!.
Defined.


Lemma Load_cold_without_coinbase_panics_witness :
  Load (Sample2.with_genesis true []) 10 Sample.G Sample.cold = Panic.
Proof.
  apply (Load_cold_without_coinbase_panics (Sample2.with_genesis true []) 10
           Sample.G Sample.cold); [reflexivity | exact I].
Defined.

Lemma parents_descend_sample : parents_descend (state (Sample.chain1 0)).
Proof. unfold parents_descend. apply (bool_decide_unpack _). vm_compute. exact I. Qed.

Lemma Rollback_terminates_witness :
  Rollback Sample.env 10 "G" None (Sample.chain1 0) ≠ OutOfFuel.
Proof.
  apply (Rollback_terminates Sample.env 10 "G" None (Sample.chain1 0) Sample.B1);
    [reflexivity | apply parents_descend_sample | evaluate..].
Defined.

(** [S1] has a single transaction. *)
Lemma RemoveBlockFromMainchain_short_block_panics_witness :
  RemoveBlockFromMainchain Sample.env 10 Sample.S1 1 (Some GetBatch) (Sample.chain1 0) = Panic.
Proof.
  apply (RemoveBlockFromMainchain_short_block_panics Sample.env 10 Sample.S1 1
           (Some GetBatch) (Sample.chain1 0)); evaluate.
Defined.

Lemma RemoveBlockFromMainchain_unmaps_at_once_witness :
  ∃ batch c',
    RemoveBlockFromMainchain Sample.env 10 Sample.B1 1 (Some GetBatch) (Sample.chain1 0)
    = Ret (Some batch, c')
    ∧ GetBlockNumberMapping 1 (state c') = None
    ∧ GetChainHeight (state c') = Some 1.
Proof.
  destruct (RemoveBlockFromMainchain_unmaps_at_once Sample.env 10 Sample.B1 1
              (Sample.chain1 0)) as (batch & c' & Hrun & _ & Hmap & Hh & _);
    try evaluate.
  exists batch, c'. by split_and!.
Defined.

Lemma AddChain_success_tip_canonical_witness :
  ∃ c', AddChain Sample.env ["G"; "B1"; "B1'"]%string Sample.fresh (Sample.chain1 0)
        = Ret (true, c')
        ∧ lastBlock c' = Some Sample.B1'
        ∧ GetBlockByNumber 1 (state c') = Some Sample.B1'.
Proof.
  destruct (AddChain_success_tip_canonical Sample.env ["G"; "B1"; "B1'"]%string Sample.fresh
              (Sample.chain1 0) Sample.B1 Sample.B1' [Sample.B1'])
    as (c' & Hrun & Htip & _ & _ & Hcan & _);
    try evaluate; try (by repeat constructor).
  exists c'. by split_and!.
Defined.

Lemma AddChain_missing_block_panics_witness :
  AddChain Sample.env ["B1"; "B1'"; "nowhere"]%string Sample.fresh (Sample.chain1 0) = Panic.
Proof.
  apply (AddChain_missing_block_panics Sample.env ["B1"; "B1'"; "nowhere"]%string
           Sample.fresh (Sample.chain1 0) Sample.B1 ["B1'"]%string [Sample.B1']
           "nowhere" []); try evaluate; by repeat constructor.
Defined.

Lemma AddChain_already_at_end_witness :
  AddChain Sample.env ["G"; "B1"]%string Sample.fresh (Sample.chain1 0)
  = Ret (true, set_state (DeleteForkState (state (Sample.chain1 0))) (Sample.chain1 0)).
Proof.
  apply (AddChain_already_at_end Sample.env ["G"%string] Sample.fresh (Sample.chain1 0)
           Sample.B1); [reflexivity|].
  intros H%list_elem_of_singleton. discriminate.
Defined.

Lemma GetForkPoint_path_length_witness :
  ∃ a, canonical (state (Sample.chain1 0)) a ∧ HeaderHash a = "G"%string
       ∧ BlockNumber a + 2 = 2.
Proof.
  apply (GetForkPoint_path_length 10 (Sample.chain1 0) (Sample.chain1 0) Sample.B2'
           "G" ["B2'"; "B1'"]%string).
  - unfold heights_step_by_one. apply (bool_decide_unpack _). vm_compute. exact I.
  - reflexivity.
  - apply GetForkPoint_sample.
Defined.

Lemma UpdateTime_first_answer_witness :
  ∃ n', Ntp.UpdateTime Sample2.late_b 7 (Ntp.locked (Sample2.two_servers 2) 0 0)
        = Ret (None, n')
        ∧ Ntp.drift n' = 2 ^ 64 - 43
        ∧ Ntp.lastUpdate n' = 50.
Proof.
  destruct (UpdateTime_first_answer Sample2.late_b 7
              (Ntp.locked (Sample2.two_servers 2) 0 0) 1 ["a"%string] "b" [] 50)
    as (n' & Hrun & Hd & Hu & _); try evaluate.
  - intros r' s' Hr' _. replace r' with 0 by lia. reflexivity.
  - intros s' ->%list_elem_of_singleton. reflexivity.
  - exists n'. rewrite Hd, Hu. split_and!; [done|evaluate..].
Defined.



Lemma Time_on_GetNTP_witness :
  Ntp.UpdateTime Sample2.first_a 7 (Ntp.GetNTP (Sample2.two_servers 2)) = Panic
  ∧ Ntp.Time Sample2.first_a 30 7 31 (Ntp.GetNTP (Sample2.two_servers 2))
    = Ret (31, Ntp.GetNTP (Sample2.two_servers 2)).
Proof.
  apply (Time_on_GetNTP Sample2.first_a (Sample2.two_servers 2) 30 7 31); evaluate.
Defined.

(** Synchronised at local second 55 with a server at second 50; read at
    local second 58. *)
Lemma Time_after_UpdateTime_witness :
  ∃ n', Ntp.UpdateTime Sample2.first_a 55 (Ntp.locked (Sample2.two_servers 2) 0 0)
        = Ret (None, n')
        ∧ Ntp.Time Sample2.first_a 57 9 58 n' = Ret (wrap64 (58 + (55 - 50)), n').
Proof.
  apply (Time_after_UpdateTime Sample2.first_a 55 57 9 58
           (Ntp.locked (Sample2.two_servers 2) 0 0) "a" ["b"%string] 50); evaluate.
Defined.
